(** * Toy robot simulator: a shallow embedding of [robot.py]

    The development follows the source file top to bottom: the module
    constants, [get_compass_direction_from_dirvec], then the methods of
    class [Robot] ([check_pos_in_bounds], [place], [move], [left],
    [right], [report], [parse_command_input], [execute_parsed_command]).

    Conventions of the embedding.
    - A Python [int] is a [Z].  A numpy array of shape (3,) is a [vec3];
      positions and headings only ever hold integral values (the heading
      is rounded with [np.round] after every rotation), so they are kept
      as [vec3 Z].  The result of a rotation, before rounding, is a
      [vec3 Q].
    - A Python [str] is a Rocq [string]; a character is a code point
      below 256.
    - A method of [Robot] is a computation in the monad [M]: it takes the
      object [self], returns it (possibly mutated) and either a value or
      a raised exception.
    - [scipy]'s [Rotation] objects [ROT_LEFT] and [ROT_RIGHT] are not part
      of the repository.  They are section variables; what is assumed of
      them is stated where it is used. *)

From Stdlib Require Import ZArith QArith Qabs Qround.
From Stdlib Require Import String Ascii List Bool Lia Lqa.
From Stdlib Require Import DecimalString DecimalPos.
Import ListNotations.

#[local] Open Scope string_scope.
#[local] Open Scope Z_scope.

(* ================================================================= *)
(** ** Exceptions and the method monad *)

Inductive exn : Type :=
| ValueError
| KeyError
| IndexError
| TypeError
| SystemExit (code : Z).

Definition exn_tag (e : exn) : nat :=
  match e with
  | ValueError => 0
  | KeyError => 1
  | IndexError => 2
  | TypeError => 3
  | SystemExit _ => 4
  end%nat.

(** [except E:] matches on the class of the exception. *)
Definition same_class (e1 e2 : exn) : bool := Nat.eqb (exn_tag e1) (exn_tag e2).

Inductive result (A : Type) : Type :=
| Ok (a : A)
| Raise (e : exn).
Arguments Ok {A} a.
Arguments Raise {A} e.

Module PyM.
Section WithState.
Variable St : Type.

Definition M (A : Type) : Type := St -> result A * St.

Definition ret {A} (a : A) : M A := fun self => (Ok a, self).

Definition raise {A} (e : exn) : M A := fun self => (Raise e, self).

Definition bind {A B} (m : M A) (k : A -> M B) : M B :=
  fun self =>
    match m self with
    | (Ok a, self') => k a self'
    | (Raise e, self') => (Raise e, self')
    end.

(** [try: body / except cls: handler]. *)
Definition try_except {A} (body : M A) (cls : exn) (handler : M A) : M A :=
  fun self =>
    match body self with
    | (Ok a, self') => (Ok a, self')
    | (Raise e, self') =>
        if same_class e cls then handler self' else (Raise e, self')
    end.

Definition lift {A} (r : result A) : M A := fun self => (r, self).

Definition get : M St := fun self => (Ok self, self).

Definition modify (f : St -> St) : M unit := fun self => (Ok tt, f self).
End WithState.

Arguments ret {St A} a.
Arguments raise {St A} e.
Arguments bind {St A B} m k.
Arguments try_except {St A} body cls handler.
Arguments lift {St A} r.
Arguments get {St}.
Arguments modify {St} f.
End PyM.
Import PyM.

Declare Scope pym_scope.
Delimit Scope pym_scope with pym.
Notation "x <- m ;; k" := (bind m (fun x => k))
  (at level 61, m at next level, right associativity) : pym_scope.
Notation "m ;;; k" := (bind m (fun _ => k))
  (at level 61, right associativity) : pym_scope.
#[local] Open Scope pym_scope.

(* ================================================================= *)
(** ** Python lists, strings and integers *)

(** [l[i]] with Python's negative indices. *)
Definition py_getitem {A : Type} (l : list A) (i : Z) : result A :=
  let n := Z.of_nat (length l) in
  let j := if i <? 0 then i + n else i in
  if (j <? 0) || (n <=? j) then Raise IndexError
  else match nth_error l (Z.to_nat j) with
       | Some a => Ok a
       | None => Raise IndexError
       end.

(** [s.split(sep)] for a one-character separator: the string is cut at
    every occurrence of [sep]; the result is never empty. *)
Fixpoint split_on (sep : ascii) (s : string) : list string :=
  match s with
  | EmptyString => [EmptyString]
  | String c rest =>
      if Ascii.eqb c sep then EmptyString :: split_on sep rest
      else match split_on sep rest with
           | [] => [String c EmptyString]
           | piece :: pieces => String c piece :: pieces
           end
  end.

(** [str(n)] for an [int]. *)
Definition py_str_of_int (n : Z) : string := NilZero.string_of_int (Z.to_int n).

(** Code points below 256 for which [str.isspace] holds. *)
Definition is_space (c : ascii) : bool :=
  let n := nat_of_ascii c in
  ((9 <=? n) && (n <=? 13) || (28 <=? n) && (n <=? 32)
   || (n =? 133) || (n =? 160))%nat.

Definition digit_value (c : ascii) : option Z :=
  let n := nat_of_ascii c in
  if ((48 <=? n) && (n <=? 57))%nat then Some (Z.of_nat n - 48) else None.

Fixpoint lstrip (s : string) : string :=
  match s with
  | String c rest => if is_space c then lstrip rest else s
  | EmptyString => EmptyString
  end.

Fixpoint rstrip (s : string) : string :=
  match s with
  | EmptyString => EmptyString
  | String c rest =>
      match rstrip rest with
      | EmptyString => if is_space c then EmptyString else String c EmptyString
      | rest' => String c rest'
      end
  end.

(** The digit scan of [int(s)] in base 10: digits, with single
    underscores allowed between two digits.  [acc] is the value so far,
    [ndigits] the number of digits read, [prev_us] whether the previous
    character was an underscore. *)
Fixpoint scan_digits (s : string) (acc : Z) (ndigits : nat) (prev_us : bool)
  : option (Z * nat) :=
  match s with
  | EmptyString => if prev_us then None else Some (acc, ndigits)
  | String c rest =>
      if Ascii.eqb c "_"%char then
        if prev_us then None else scan_digits rest acc ndigits true
      else match digit_value c with
           | Some d => scan_digits rest (10 * acc + d) (S ndigits) false
           | None => None
           end
  end.

(** CPython's default limit on the number of digits of a decimal string
    ([sys.int_info.default_max_str_digits]). *)
Definition int_max_str_digits : nat := 4300.

(** [int(s)] for a [str]: surrounding whitespace is stripped, one sign is
    allowed, then at least one digit.  Anything else is a [ValueError]. *)
Definition py_int (s : string) : result Z :=
  let body := rstrip (lstrip s) in
  let '(negative, digits) :=
    match body with
    | String "+" rest => (false, rest)
    | String "-" rest => (true, rest)
    | _ => (false, body)
    end in
  match digits with
  | EmptyString => Raise ValueError
  | String "_" _ => Raise ValueError
  | _ =>
      match scan_digits digits 0 0 false with
      | Some (v, n) =>
          if (int_max_str_digits <? n)%nat then Raise ValueError
          else Ok (if negative then - v else v)
      | None => Raise ValueError
      end
  end.

(* ================================================================= *)
(** ** numpy arrays of shape (3,) *)

Record vec3 (A : Type) : Type := Vec { vx : A; vy : A; vz : A }.
Arguments Vec {A} vx vy vz.
Arguments vx {A} v.
Arguments vy {A} v.
Arguments vz {A} v.

Definition vec3_add (a b : vec3 Z) : vec3 Z :=
  Vec (vx a + vx b) (vy a + vy b) (vz a + vz b).

(** [np.isclose(a, b)] with the default tolerances:
    [|a - b| <= atol + rtol * |b|], [rtol = 1e-05], [atol = 1e-08]. *)
Definition isclose_rtol : Q := 1 # 100000.
Definition isclose_atol : Q := 1 # 100000000.

Definition np_isclose (a b : Z) : bool :=
  Qle_bool (Qabs (inject_Z a - inject_Z b))
           (isclose_atol + isclose_rtol * Qabs (inject_Z b)).

(** [np.isclose(a, b).all()] on arrays of shape (3,). *)
Definition np_isclose_all (a b : vec3 Z) : bool :=
  np_isclose (vx a) (vx b) && np_isclose (vy a) (vy b) && np_isclose (vz a) (vz b).

(** [np.round(x, 0)]: the nearest integer, a tie going to the even one. *)
Definition np_round (q : Q) : Z :=
  let f := Qfloor q in
  match Qcompare (q - inject_Z f) (1 # 2) with
  | Lt => f
  | Gt => f + 1
  | Eq => if Z.even f then f else f + 1
  end.

Definition np_round_vec (v : vec3 Q) : vec3 Z :=
  Vec (np_round (vx v)) (np_round (vy v)) (np_round (vz v)).

(** A [scipy.spatial.transform.Rotation]: all the source uses of it is
    [apply], on a heading vector. *)
Record Rotation : Type := { apply : vec3 Z -> vec3 Q }.

(* ================================================================= *)
(** ** Module constants *)

Definition TABLE_DIM_MAX : Z := 4.
Definition TABLE_DIM_MIN : Z := 0.

Inductive pytype : Type := py_type_int | py_type_str.

Definition COMMANDS_AND_ARGS : list (string * list pytype) :=
  [ ("PLACE", [py_type_int; py_type_int; py_type_str]);
    ("MOVE", []);
    ("LEFT", []);
    ("RIGHT", []);
    ("REPORT", []);
    ("HELP", []);
    ("EXIT", []) ].

(** A dynamically typed value: all the program handles are [int]s and
    [str]s. *)
Inductive pyval : Type :=
| PyInt (n : Z)
| PyStr (s : string).

Definition pyval_eqb (a b : pyval) : bool :=
  match a, b with
  | PyInt m, PyInt n => m =? n
  | PyStr s, PyStr t => String.eqb s t
  | _, _ => false
  end.

(** A [dict], as the list of its items; [d[key]] raises [KeyError] when
    the key is absent. *)
Fixpoint dict_getitem {A : Type} (d : list (pyval * A)) (key : pyval) : result A :=
  match d with
  | [] => Raise KeyError
  | (k, v) :: d' => if pyval_eqb key k then Ok v else dict_getitem d' key
  end.

Definition DIRVECTOR_FROM_COMPASS_DIRECTION : list (pyval * vec3 Z) :=
  [ (PyStr "NORTH", Vec 0 1 0);
    (PyStr "SOUTH", Vec 0 (-1) 0);
    (PyStr "WEST", Vec (-1) 0 0);
    (PyStr "EAST", Vec 1 0 0) ].

(** The shape test of the source ([np.shape(dirvec)] against (3,)) always
    passes on a [vec3]. *)
Definition get_compass_direction_from_dirvec (dirvec : vec3 Z) : string :=
  if np_isclose_all dirvec (Vec 0 1 0) then "NORTH"
  else if np_isclose_all dirvec (Vec 0 (-1) 0) then "SOUTH"
  else if np_isclose_all dirvec (Vec (-1) 0 0) then "WEST"
  else if np_isclose_all dirvec (Vec 1 0 0) then "EAST"
  else "ERROR".

(* ================================================================= *)
(** ** class Robot *)

Record Robot : Type := mkRobot {
  pos : vec3 Z;
  heading_vector : vec3 Z;
  placed : bool
}.

(** [Robot.__init__] *)
Definition init : Robot :=
  {| pos := Vec 0 0 0; heading_vector := Vec 0 0 0; placed := false |}.

Definition set_pos (p : vec3 Z) (self : Robot) : Robot :=
  {| pos := p; heading_vector := heading_vector self; placed := placed self |}.
Definition set_heading_vector (h : vec3 Z) (self : Robot) : Robot :=
  {| pos := pos self; heading_vector := h; placed := placed self |}.
Definition set_placed (b : bool) (self : Robot) : Robot :=
  {| pos := pos self; heading_vector := heading_vector self; placed := b |}.

Definition not_placed_message : string :=
  "Error: please first issue a in-bounds PLACE command".

Section Methods.
(** [ROT_LEFT = R.from_euler('xyz', [0, 0, 90], degrees=True)] and
    [ROT_RIGHT = R.from_euler('xyz', [0, 0, -90], degrees=True)]. *)
Variables ROT_LEFT ROT_RIGHT : Rotation.

Definition check_pos_in_bounds (p : vec3 Z) : M Robot bool :=
  try_except
    (if (vx p <? TABLE_DIM_MIN) || (vx p >? TABLE_DIM_MAX) then raise ValueError
     else if (vy p <? TABLE_DIM_MIN) || (vy p >? TABLE_DIM_MAX) then raise ValueError
     else ret true)
    ValueError
    (ret false).

(** [x] and [y] are [int]s; [compass_direction] is whatever the caller
    passes, since all [place] does with it is a [dict] lookup.  The
    heading vector becomes the very array the table holds; no statement
    of the program writes into an array, so the sharing is never seen. *)
Definition place (x y : Z) (compass_direction : pyval) : M Robot bool :=
  let place_pos := Vec x y 0 in
  in_bounds <- check_pos_in_bounds place_pos ;;
  if negb in_bounds then ret false else
  assigned <- try_except
      (h <- lift (dict_getitem DIRVECTOR_FROM_COMPASS_DIRECTION compass_direction) ;;
       modify (set_heading_vector h) ;;;
       ret true)
      KeyError
      (ret false) ;;
  if negb assigned then ret false else
  modify (set_pos place_pos) ;;;
  modify (set_placed true) ;;;
  ret true.

Definition move : M Robot bool :=
  self <- get ;;
  if negb (placed self) then ret false else
  let new_pos := vec3_add (pos self) (heading_vector self) in
  in_bounds <- check_pos_in_bounds new_pos ;;
  if negb in_bounds then ret false else
  modify (set_pos new_pos) ;;;
  ret true.

(** The two assignments of the source, [ROT_LEFT.apply] then
    [np.round], are one step here: the unrounded vector is never
    observed. *)
Definition left : M Robot bool :=
  self <- get ;;
  if negb (placed self) then ret false else
  modify (set_heading_vector
            (np_round_vec (apply ROT_LEFT (heading_vector self)))) ;;;
  ret true.

Definition right : M Robot bool :=
  self <- get ;;
  if negb (placed self) then ret false else
  modify (set_heading_vector
            (np_round_vec (apply ROT_RIGHT (heading_vector self)))) ;;;
  ret true.

Definition report : M Robot string :=
  self <- get ;;
  if negb (placed self) then ret not_placed_message else
  let direction_str := get_compass_direction_from_dirvec (heading_vector self) in
  ret (py_str_of_int (vx (pos self)) ++ "," ++ py_str_of_int (vy (pos self))
       ++ "," ++ direction_str).

(** The conversion [p_type(text)] of one parameter. *)
Definition cast (p_type : pytype) (text : string) : M Robot pyval :=
  match p_type with
  | py_type_int => n <- lift (py_int text) ;; ret (PyInt n)
  | py_type_str => ret (PyStr text)
  end.

(** The first loop of [parse_command_input]: the index of the first
    entry of the table whose verb is [verb_params_split[0]], or the
    initial [-1]. *)
Fixpoint find_verb (verb_params_split : list string)
    (table : list (string * list pytype)) (i : Z) (found_valid_verb : Z)
  : M Robot Z :=
  match table with
  | [] => ret found_valid_verb
  | c :: table' =>
      v <- lift (py_getitem verb_params_split 0) ;;
      if negb (String.eqb v (fst c))
      then find_verb verb_params_split table' (i + 1) found_valid_verb
      else ret i
  end.

(** The second loop: [params_casted.append(p_type(params_found[i]))]. *)
Fixpoint cast_params (params_found : list string) (types : list pytype)
    (i : Z) (params_casted : list pyval) : M Robot (list pyval) :=
  match types with
  | [] => ret params_casted
  | p_type :: types' =>
      text <- lift (py_getitem params_found i) ;;
      v <- cast p_type text ;;
      cast_params params_found types' (i + 1) (params_casted ++ [v])
  end.

Definition parse_command_input (command_str : string)
  : M Robot (string * list pyval) :=
  let verb_params_split := split_on " " command_str in
  let input_has_params := (1 <? length verb_params_split)%nat in
  let found_valid_verb := -1 in
  try_except
    (found_valid_verb <-
       find_verb verb_params_split COMMANDS_AND_ARGS 0 found_valid_verb ;;
     if found_valid_verb =? -1 then raise ValueError else
     c <- lift (py_getitem COMMANDS_AND_ARGS found_valid_verb) ;;
     let verb := fst c in
     let valid_param_types := snd c in
     if negb input_has_params then
       if (0 <? length valid_param_types)%nat then raise ValueError
       else ret (verb, [])
     else
     if (length valid_param_types =? 0)%nat then raise ValueError else
     block <- lift (py_getitem verb_params_split 1) ;;
     let params_found := split_on "," block in
     if negb (length params_found =? length valid_param_types)%nat
     then raise ValueError else
     params_casted <- cast_params params_found valid_param_types 0 [] ;;
     ret (verb, params_casted))
    ValueError
    (ret ("error", [])).

(** An argument bound to a parameter that [place] uses as a number. *)
Definition as_int (v : pyval) : M Robot Z :=
  match v with
  | PyInt n => ret n
  | PyStr _ => raise TypeError
  end.

(** [print_help] and [draw_map] only write to the console; they are
    left out.  [sys.exit(0)] raises [SystemExit]. *)
Definition execute_parsed_command (command_verb : string) (params : list pyval)
  : M Robot string :=
  if String.eqb command_verb "PLACE" then
    p0 <- lift (py_getitem params 0) ;;
    p1 <- lift (py_getitem params 1) ;;
    p2 <- lift (py_getitem params 2) ;;
    x <- as_int p0 ;;
    y <- as_int p1 ;;
    place x y p2 ;;;
    ret ""
  else if String.eqb command_verb "MOVE" then move ;;; ret ""
  else if String.eqb command_verb "LEFT" then left ;;; ret ""
  else if String.eqb command_verb "RIGHT" then right ;;; ret ""
  else if String.eqb command_verb "REPORT" then report
  else if String.eqb command_verb "EXIT" then raise (SystemExit 0)
  else ret "".

(** The loop of [exec_robot_commands] in [test_robot.py]. *)
Fixpoint exec_commands (commands : list string) (output : string)
  : M Robot string :=
  match commands with
  | [] => ret output
  | c :: commands' =>
      parsed <- parse_command_input c ;;
      output <- execute_parsed_command (fst parsed) (snd parsed) ;;
      exec_commands commands' output
  end.

(** *** The operations of the state machine *)

Inductive op : Type :=
| OpPlace (x y : Z) (compass_direction : pyval)
| OpMove
| OpLeft
| OpRight
| OpReport.

(** The robot after a call. *)
Definition after (o : op) (self : Robot) : Robot :=
  match o with
  | OpPlace x y d => snd (place x y d self)
  | OpMove => snd (move self)
  | OpLeft => snd (left self)
  | OpRight => snd (right self)
  | OpReport => snd (report self)
  end.

Inductive reachable : Robot -> Prop :=
| reachable_init : reachable init
| reachable_call (o : op) (self : Robot) :
    reachable self -> reachable (after o self).
End Methods.

(** [exec_robot_commands]: a fresh robot runs the commands; the result is
    the output of the last one. *)
Definition exec_robot_commands (ROT_LEFT ROT_RIGHT : Rotation)
    (commands : list string) : result string :=
  fst (exec_commands ROT_LEFT ROT_RIGHT commands "" init).

(* ================================================================= *)
(** ** Rotations by a quarter turn *)

(** The rotation by +90 degrees about the z axis, in exact arithmetic. *)
Definition quarter_left (v : vec3 Z) : vec3 Z := Vec (- vy v) (vx v) (vz v).

(** The rotation by -90 degrees about the z axis. *)
Definition quarter_right (v : vec3 Z) : vec3 Z := Vec (vy v) (- vx v) (vz v).

(** [cos(pi/2)] in binary64 arithmetic, to sixteen digits: 6.123e-17. *)
Definition cos90_binary64 : Q := 6123233995736766 # 100000000000000000000000000000000.

(** A rotation matrix [[c, -s, 0], [s, c, 0], [0, 0, 1]] applied to a
    vector. *)
Definition rot_z (c s : Q) : Rotation :=
  {| apply v :=
       Vec (c * inject_Z (vx v) - s * inject_Z (vy v))%Q
           (s * inject_Z (vx v) + c * inject_Z (vy v))%Q
           (inject_Z (vz v)) |}.

(** Sample values of [ROT_LEFT] and [ROT_RIGHT]: quarter turns whose
    cosine is not exactly zero. *)
Definition ROT_LEFT_binary64 : Rotation := rot_z cos90_binary64 1.
Definition ROT_RIGHT_binary64 : Rotation := rot_z cos90_binary64 (-1).

(** A test of [test_robot.py], run on the sample rotations. *)
Definition run_test (commands : list string) : result string :=
  exec_robot_commands ROT_LEFT_binary64 ROT_RIGHT_binary64 commands.

(** What is assumed of [scipy]: on each of the four heading vectors,
    every component of the rotated vector is less than one half away
    from the exact quarter turn. *)
Definition near (q : Q) (z : Z) : Prop := (Qabs (q - inject_Z z) < 1 # 2)%Q.

Definition near_vec (a : vec3 Q) (b : vec3 Z) : Prop :=
  near (vx a) (vx b) /\ near (vy a) (vy b) /\ near (vz a) (vz b).

Definition compass_vectors : list (vec3 Z) :=
  map snd DIRVECTOR_FROM_COMPASS_DIRECTION.

Definition quarter_turns (ROT_LEFT ROT_RIGHT : Rotation) : Prop :=
  forall v, In v compass_vectors ->
    near_vec (apply ROT_LEFT v) (quarter_left v) /\
    near_vec (apply ROT_RIGHT v) (quarter_right v).

(* ================================================================= *)
(** ** Vocabulary of the statements *)

(** The four direction names. *)
Definition compass_names : list string := ["NORTH"; "SOUTH"; "EAST"; "WEST"].

(** A position on the table: both coordinates in [0, 4]. *)
Definition on_table (p : vec3 Z) : Prop :=
  0 <= vx p <= 4 /\ 0 <= vy p <= 4.

Definition on_tableb (p : vec3 Z) : bool :=
  (0 <=? vx p) && (vx p <=? 4) && (0 <=? vy p) && (vy p <=? 4).

(** The invariant of the data model: a placed robot is on the table. *)
Definition placed_on_table (self : Robot) : Prop :=
  placed self = true -> on_table (pos self).

(** A placed robot faces one of the four directions. *)
Definition placed_facing_compass (self : Robot) : Prop :=
  placed self = true -> In (heading_vector self) compass_vectors.

(** The text [report] gives for a placed robot at [x], [y] facing [name]. *)
Definition pose_text (x y : Z) (name : string) : string :=
  py_str_of_int x ++ "," ++ py_str_of_int y ++ "," ++ name.

(** The cycle of left turns, NORTH -> WEST -> SOUTH -> EAST -> NORTH. *)
Definition left_of (name : string) : string :=
  if String.eqb name "NORTH" then "WEST"
  else if String.eqb name "WEST" then "SOUTH"
  else if String.eqb name "SOUTH" then "EAST"
  else if String.eqb name "EAST" then "NORTH"
  else name.

(** The reverse cycle, NORTH -> EAST -> SOUTH -> WEST -> NORTH. *)
Definition right_of (name : string) : string :=
  if String.eqb name "NORTH" then "EAST"
  else if String.eqb name "EAST" then "SOUTH"
  else if String.eqb name "SOUTH" then "WEST"
  else if String.eqb name "WEST" then "NORTH"
  else name.

(** Several calls in a row. *)
Fixpoint after_all (ROT_LEFT ROT_RIGHT : Rotation) (os : list op) (self : Robot)
  : Robot :=
  match os with
  | [] => self
  | o :: os' => after_all ROT_LEFT ROT_RIGHT os' (after ROT_LEFT ROT_RIGHT o self)
  end.

(** A string without a space. *)
Fixpoint no_space (s : string) : bool :=
  match s with
  | EmptyString => true
  | String c rest => negb (Ascii.eqb c " ") && no_space rest
  end.

(** What the parser returns on a failure. *)
Definition parse_error : string * list pyval := ("error", []).

(** A value of the type a command table entry asks for. *)
Definition has_type (t : pytype) (v : pyval) : Prop :=
  match t, v with
  | py_type_int, PyInt _ => True
  | py_type_str, PyStr _ => True
  | _, _ => False
  end.

(** The conversions of a parameter list, stopping at the first one that
    fails. *)
Fixpoint convert_all (types : list pytype) (fields : list string)
  : option (list pyval) :=
  match types, fields with
  | [], _ => Some []
  | py_type_int :: types', text :: fields' =>
      match py_int text with
      | Ok n => option_map (cons (PyInt n)) (convert_all types' fields')
      | Raise _ => None
      end
  | py_type_str :: types', text :: fields' =>
      option_map (cons (PyStr text)) (convert_all types' fields')
  | _ :: _, [] => None
  end.

(** The parser as a function of the pieces of the line, with no
    exception and no robot: what [parse_command_input] is shown to
    compute ([parse_command_input_eq]). *)
Definition parse_outcome (pieces : list string) : string * list pyval :=
  match pieces with
  | [] => parse_error
  | v :: more =>
      match find (fun c => String.eqb v (fst c)) COMMANDS_AND_ARGS with
      | None => parse_error
      | Some (verb, types) =>
          match more, types with
          | [], [] => (verb, [])
          | [], _ :: _ => parse_error
          | _ :: _, [] => parse_error
          | block :: _, _ :: _ =>
              let fields := split_on "," block in
              if (length fields =? length types)%nat then
                match convert_all types fields with
                | Some params => (verb, params)
                | None => parse_error
                end
              else parse_error
          end
      end
  end.

(** The number of parameters a line supplies: none without a parameter
    block, else the number of comma-separated fields of the block. *)
Definition supplied_count (pieces : list string) : nat :=
  match pieces with
  | _ :: block :: _ => length (split_on "," block)
  | _ => 0%nat
  end.

(* ================================================================= *)
(** ** The rest of [robot.py] and the command loop *)

Definition MAPCHAR_FROM_COMPASS_DIRECTION : list (pyval * string) :=
  [ (PyStr "NORTH", "^");
    (PyStr "SOUTH", "v");
    (PyStr "WEST", "<");
    (PyStr "EAST", ">") ].

(** The elements of [range(start, stop, step)], [fuel] of them. *)
Fixpoint range_from (fuel : nat) (start step : Z) : list Z :=
  match fuel with
  | O => []
  | S fuel' => start :: range_from fuel' (start + step) step
  end.

(** [range(start, stop, step)] as a list.  A zero step, which Python
    refuses, does not occur in the source. *)
Definition py_range (start stop step : Z) : list Z :=
  if 0 <? step
  then range_from (Z.to_nat ((stop - start + step - 1) / step)) start step
  else if step <? 0
  then range_from (Z.to_nat ((start - stop - step - 1) / (- step))) start step
  else [].

Definition newline : string := String (ascii_of_nat 10) "".

(** The inner loop of [draw_map]: the cells of row [r] appended to
    [draw_row]. *)
Definition draw_cells (self : Robot) (robot_indicator_char : string) (r : Z)
    (columns : list Z) (draw_row : string) : string :=
  fold_left
    (fun draw_row c =>
       if (vx (pos self) =? c) && (vy (pos self) =? r)
       then draw_row ++ (robot_indicator_char ++ " ")
       else draw_row ++ "  ")
    columns draw_row.

(** [draw_map]: the value is the list of the strings given to [print],
    in order. *)
Definition draw_map : M Robot (list string) :=
  self <- get ;;
  let rows := TABLE_DIM_MAX in
  let cols := TABLE_DIM_MAX in
  let robot_indicator_char := " " in
  head <-
    (if placed self then
       robot_indicator_char <-
         try_except
           (lift (dict_getitem MAPCHAR_FROM_COMPASS_DIRECTION
                    (PyStr (get_compass_direction_from_dirvec (heading_vector self)))))
           KeyError
           (ret "O") ;;
       ret (robot_indicator_char,
            newline ++ "  # # # # # # #  " ++ "Robot position with heading "
              ++ "North(^), South (v), West(<), East(>)")
     else
       ret (robot_indicator_char,
            newline ++ "  # # # # # # #  Robot not placed yet")) ;;
  let robot_indicator_char := fst head in
  let row_lines :=
    map (fun r =>
           draw_cells self robot_indicator_char r
             (py_range TABLE_DIM_MIN (cols + 1) 1)
             (py_str_of_int r ++ " # ")
           ++ "#")
        (py_range rows (TABLE_DIM_MIN - 1) (-1)) in
  ret (snd head
         :: app row_lines ["Y # # # # # # #"; "  X 0 1 2 3 4  " ++ newline]).

(** The character the map shows in column [c] of row [r]: the printed
    row of [r] is the line number [1 + (4 - r)], and the cell of [c]
    starts at its character [4 + 2 c]. *)
Definition map_cell (printed : list string) (c r : Z) : option ascii :=
  String.get (Z.to_nat (4 + 2 * c)) (nth (Z.to_nat (1 + (4 - r))) printed "").

(** One turn of the command loop ([main.py], and [exec_robot_commands]
    of the tests): parse the line, execute what was parsed. *)
Definition run_line (ROT_LEFT ROT_RIGHT : Rotation) (command_str : string)
  : M Robot string :=
  parsed <- parse_command_input command_str ;;
  execute_parsed_command ROT_LEFT ROT_RIGHT (fst parsed) (snd parsed).

(** The verbs that take no parameter. *)
Definition plain_verbs : list string :=
  ["MOVE"; "LEFT"; "RIGHT"; "REPORT"; "HELP"; "EXIT"].

(** The robot after [n] calls of [move]. *)
Fixpoint move_times (n : nat) (self : Robot) : Robot :=
  match n with
  | O => self
  | S n' => move_times n' (snd (move self))
  end.

(** A coordinate kept inside the table. *)
Definition clamp (z : Z) : Z := Z.max TABLE_DIM_MIN (Z.min TABLE_DIM_MAX z).

(** *** Proof steps *)

(** The side conditions of a turn: the robot is placed and faces one of
    the four directions. *)
#[local] Ltac compass_side :=
  simpl; first [reflexivity | unfold compass_vectors; simpl; auto 6].

(** A verb without parameters, with or without a parameter block. *)
#[local] Ltac zero_arity more :=
  destruct more as [| block more']; vm_compute; reflexivity.

(** The tests of a verb against the verbs of the table, evaluated. *)
#[local] Ltac string_tests :=
  repeat match goal with
         | |- context [String.eqb ?a ?b] =>
             let v := eval vm_compute in (String.eqb a b) in
             change (String.eqb a b) with v
         end;
  cbv beta iota.

(* ================================================================= *)
(** * Properties *)

(** ** Rounding and closeness *)

Lemma np_round_near (q : Q) (z : Z) : near q z -> np_round q = z.
Proof.
  unfold near, np_round. intros H.
  apply Qabs_Qlt_condition in H. destruct H as [Hlo Hhi].
  pose proof (Qfloor_le q) as Hfl.
  pose proof (Qlt_floor q) as Hfu.
  rewrite inject_Z_plus in Hfu. change (inject_Z 1) with 1%Q in Hfu.
  assert (Hcase : Qfloor q = z \/ Qfloor q = z + -1).
  { assert (H1 : (inject_Z (Qfloor q) < inject_Z (z + 1))%Q)
      by (rewrite inject_Z_plus; change (inject_Z 1) with 1%Q; lra).
    assert (H2 : (inject_Z (z + -2) < inject_Z (Qfloor q))%Q)
      by (rewrite inject_Z_plus; change (inject_Z (-2)) with (-2 # 1)%Q; lra).
    rewrite <- Zlt_Qlt in H1, H2. lia. }
  destruct Hcase as [Hf | Hf]; rewrite Hf in *.
  - destruct (Qcompare_spec (q - inject_Z z) (1 # 2)) as [E | L | G]; try lra.
    reflexivity.
  - rewrite inject_Z_plus in *. change (inject_Z (-1)) with (-1 # 1)%Q in *.
    destruct (Qcompare_spec (q - (inject_Z z + (-1 # 1))) (1 # 2)) as [E | L | G];
      try lra.
    lia.
Qed.

Lemma np_round_vec_near (a : vec3 Q) (b : vec3 Z) :
  near_vec a b -> np_round_vec a = b.
Proof.
  intros (Hx & Hy & Hz). destruct b as [bx by_ bz]. unfold np_round_vec.
  simpl in Hx, Hy, Hz.
  rewrite (np_round_near _ _ Hx), (np_round_near _ _ Hy), (np_round_near _ _ Hz).
  reflexivity.
Qed.

Lemma compass_vectors_cases (v : vec3 Z) :
  In v compass_vectors ->
  v = Vec 0 1 0 \/ v = Vec 0 (-1) 0 \/ v = Vec (-1) 0 0 \/ v = Vec 1 0 0.
Proof.
  unfold compass_vectors. simpl. intuition auto.
Qed.

Lemma quarter_left_compass (v : vec3 Z) :
  In v compass_vectors -> In (quarter_left v) compass_vectors.
Proof.
  intros H. apply compass_vectors_cases in H.
  destruct H as [-> | [-> | [-> | ->]]]; unfold compass_vectors; simpl; auto.
Qed.

Lemma quarter_right_compass (v : vec3 Z) :
  In v compass_vectors -> In (quarter_right v) compass_vectors.
Proof.
  intros H. apply compass_vectors_cases in H.
  destruct H as [-> | [-> | [-> | ->]]]; unfold compass_vectors; simpl; auto.
Qed.

(** The name [report] prints for a heading vector of the table is the
    key it is stored under. *)
Lemma compass_name_of_dirvector (d : pyval) (v : vec3 Z) :
  dict_getitem DIRVECTOR_FROM_COMPASS_DIRECTION d = Ok v ->
  d = PyStr (get_compass_direction_from_dirvec v) /\ In v compass_vectors.
Proof.
  unfold DIRVECTOR_FROM_COMPASS_DIRECTION, dict_getitem.
  destruct d as [n | name]; simpl; [discriminate |].
  destruct (String.eqb_spec name "NORTH") as [-> | _].
  { intros [= <-]. split; [reflexivity | unfold compass_vectors; simpl; auto]. }
  destruct (String.eqb_spec name "SOUTH") as [-> | _].
  { intros [= <-]. split; [reflexivity | unfold compass_vectors; simpl; auto]. }
  destruct (String.eqb_spec name "WEST") as [-> | _].
  { intros [= <-]. split; [reflexivity | unfold compass_vectors; simpl; auto]. }
  destruct (String.eqb_spec name "EAST") as [-> | _].
  { intros [= <-]. split; [reflexivity | unfold compass_vectors; simpl; auto 6]. }
  discriminate.
Qed.

Lemma dirvector_of_compass_name (name : string) :
  In name compass_names ->
  exists v, dict_getitem DIRVECTOR_FROM_COMPASS_DIRECTION (PyStr name) = Ok v.
Proof.
  unfold compass_names. simpl.
  intros [<- | [<- | [<- | [<- | []]]]]; eexists; reflexivity.
Qed.

Lemma dirvector_missing (d : pyval) :
  ~ In d (map PyStr compass_names) ->
  dict_getitem DIRVECTOR_FROM_COMPASS_DIRECTION d = Raise KeyError.
Proof.
  unfold compass_names, DIRVECTOR_FROM_COMPASS_DIRECTION, dict_getitem. simpl.
  intros H. destruct d as [n | name]; simpl; [reflexivity |].
  destruct (String.eqb_spec name "NORTH") as [-> | _]; [tauto |].
  destruct (String.eqb_spec name "SOUTH") as [-> | _]; [tauto |].
  destruct (String.eqb_spec name "WEST") as [-> | _]; [tauto |].
  destruct (String.eqb_spec name "EAST") as [-> | _]; [tauto |].
  reflexivity.
Qed.

Lemma dict_getitem_raises {A : Type} (d : list (pyval * A)) (key : pyval) (e : exn) :
  dict_getitem d key = Raise e -> e = KeyError.
Proof.
  induction d as [| [k v] d IH]; simpl.
  - intros [= <-]. reflexivity.
  - destruct (pyval_eqb key k); [discriminate | exact IH].
Qed.

(** ** The methods, as equations *)

Lemma on_tableb_spec (p : vec3 Z) : on_tableb p = true <-> on_table p.
Proof.
  unfold on_tableb, on_table. rewrite !andb_true_iff, !Z.leb_le. tauto.
Qed.

Lemma on_tableb_false (p : vec3 Z) : on_tableb p = false <-> ~ on_table p.
Proof.
  rewrite <- on_tableb_spec. destruct (on_tableb p); split; congruence.
Qed.

Lemma check_pos_in_bounds_eq (p : vec3 Z) (self : Robot) :
  check_pos_in_bounds p self = (Ok (on_tableb p), self).
Proof.
  unfold check_pos_in_bounds, try_except, on_tableb, TABLE_DIM_MIN, TABLE_DIM_MAX.
  rewrite !Z.gtb_ltb, !Z.leb_antisym.
  destruct (vx p <? 0), (4 <? vx p), (vy p <? 0), (4 <? vy p); reflexivity.
Qed.

Lemma place_eq (x y : Z) (d : pyval) (self : Robot) :
  place x y d self =
  if on_tableb (Vec x y 0) then
    match dict_getitem DIRVECTOR_FROM_COMPASS_DIRECTION d with
    | Ok h => (Ok true, {| pos := Vec x y 0; heading_vector := h; placed := true |})
    | Raise _ => (Ok false, self)
    end
  else (Ok false, self).
Proof.
  unfold place, bind. rewrite check_pos_in_bounds_eq.
  destruct (on_tableb (Vec x y 0)); [| reflexivity].
  cbn [negb]. unfold try_except, lift, modify, ret, bind.
  destruct (dict_getitem DIRVECTOR_FROM_COMPASS_DIRECTION d) as [h | e] eqn:E.
  - reflexivity.
  - apply dict_getitem_raises in E. subst e. reflexivity.
Qed.

Lemma move_eq (self : Robot) :
  move self =
  if placed self then
    let new_pos := vec3_add (pos self) (heading_vector self) in
    if on_tableb new_pos then (Ok true, set_pos new_pos self) else (Ok false, self)
  else (Ok false, self).
Proof.
  unfold move, bind, get. simpl.
  destruct (placed self); [| reflexivity]. simpl.
  rewrite check_pos_in_bounds_eq.
  destruct (on_tableb _); reflexivity.
Qed.

Lemma left_eq (ROT_LEFT : Rotation) (self : Robot) :
  left ROT_LEFT self =
  if placed self then
    (Ok true,
     set_heading_vector (np_round_vec (apply ROT_LEFT (heading_vector self))) self)
  else (Ok false, self).
Proof.
  unfold left, bind, get. simpl. destruct (placed self); reflexivity.
Qed.

Lemma right_eq (ROT_RIGHT : Rotation) (self : Robot) :
  right ROT_RIGHT self =
  if placed self then
    (Ok true,
     set_heading_vector (np_round_vec (apply ROT_RIGHT (heading_vector self))) self)
  else (Ok false, self).
Proof.
  unfold right, bind, get. simpl. destruct (placed self); reflexivity.
Qed.

Lemma report_eq (self : Robot) :
  report self =
  (Ok (if placed self
       then pose_text (vx (pos self)) (vy (pos self))
              (get_compass_direction_from_dirvec (heading_vector self))
       else not_placed_message),
   self).
Proof.
  unfold report, bind, get. simpl. destruct (placed self); reflexivity.
Qed.

Lemma py_str_of_int_head (n : Z) :
  exists c rest, py_str_of_int n = String c rest /\ c <> "E"%char.
Proof.
  unfold py_str_of_int.
  destruct n as [| p | p]; simpl.
  - eexists _, _. split; [reflexivity | discriminate].
  - destruct (Pos.to_uint p); simpl; eexists _, _; (split; [reflexivity | discriminate]).
  - eexists _, _. split; [reflexivity | discriminate].
Qed.

Lemma compass_vector_name (v : vec3 Z) :
  In v compass_vectors ->
  In (get_compass_direction_from_dirvec v) compass_names.
Proof.
  intros H. apply compass_vectors_cases in H.
  destruct H as [-> | [-> | [-> | ->]]]; vm_compute; auto.
Qed.

(** ** The state machine *)

Section StateMachine.
Variables ROT_LEFT ROT_RIGHT : Rotation.
Hypothesis scipy_accurate : quarter_turns ROT_LEFT ROT_RIGHT.

#[local] Abbreviation step := (after ROT_LEFT ROT_RIGHT).
#[local] Abbreviation steps := (after_all ROT_LEFT ROT_RIGHT).
#[local] Abbreviation Reachable := (reachable ROT_LEFT ROT_RIGHT).

Lemma turn_left_exact (v : vec3 Z) :
  In v compass_vectors -> np_round_vec (apply ROT_LEFT v) = quarter_left v.
Proof.
  intros H. apply np_round_vec_near. apply (scipy_accurate v H).
Qed.

Lemma turn_right_exact (v : vec3 Z) :
  In v compass_vectors -> np_round_vec (apply ROT_RIGHT v) = quarter_right v.
Proof.
  intros H. apply np_round_vec_near. apply (scipy_accurate v H).
Qed.

Lemma step_left_placed (self : Robot) :
  placed self = true -> In (heading_vector self) compass_vectors ->
  step OpLeft self = set_heading_vector (quarter_left (heading_vector self)) self.
Proof.
  intros Hp Hh. unfold after. rewrite left_eq, Hp. simpl.
  rewrite (turn_left_exact _ Hh). reflexivity.
Qed.

Lemma step_right_placed (self : Robot) :
  placed self = true -> In (heading_vector self) compass_vectors ->
  step OpRight self = set_heading_vector (quarter_right (heading_vector self)) self.
Proof.
  intros Hp Hh. unfold after. rewrite right_eq, Hp. simpl.
  rewrite (turn_right_exact _ Hh). reflexivity.
Qed.

Lemma step_placed_on_table (o : op) (self : Robot) :
  placed_on_table self -> placed_on_table (step o self).
Proof.
  unfold placed_on_table. intros Hinv.
  destruct o as [x y d | | | |]; unfold after.
  - rewrite place_eq.
    destruct (on_tableb (Vec x y 0)) eqn:Hb; [| exact Hinv].
    destruct (dict_getitem DIRVECTOR_FROM_COMPASS_DIRECTION d); [| exact Hinv].
    simpl. intros _. apply on_tableb_spec in Hb. exact Hb.
  - rewrite move_eq. destruct (placed self) eqn:Hp; [| simpl; congruence].
    cbv zeta.
    destruct (on_tableb (vec3_add (pos self) (heading_vector self))) eqn:Hb.
    + simpl. intros _. apply on_tableb_spec in Hb. exact Hb.
    + simpl. intros _. apply Hinv. reflexivity.
  - rewrite left_eq. destruct (placed self) eqn:Hp; simpl; [| congruence].
    intros _. apply Hinv. reflexivity.
  - rewrite right_eq. destruct (placed self) eqn:Hp; simpl; [| congruence].
    intros _. apply Hinv. reflexivity.
  - rewrite report_eq. exact Hinv.
Qed.

Lemma step_keeps_placed (o : op) (self : Robot) :
  placed self = true -> placed (step o self) = true.
Proof.
  intros Hp. destruct o as [x y d | | | |]; unfold after.
  - rewrite place_eq.
    destruct (on_tableb (Vec x y 0)); [| exact Hp].
    destruct (dict_getitem DIRVECTOR_FROM_COMPASS_DIRECTION d); [reflexivity | exact Hp].
  - rewrite move_eq, Hp. cbv zeta.
    destruct (on_tableb _); simpl; exact Hp.
  - rewrite left_eq, Hp. simpl. exact Hp.
  - rewrite right_eq, Hp. simpl. exact Hp.
  - rewrite report_eq. exact Hp.
Qed.

Lemma step_facing_compass (o : op) (self : Robot) :
  placed_facing_compass self -> placed_facing_compass (step o self).
Proof.
  unfold placed_facing_compass. intros Hinv.
  destruct o as [x y d | | | |].
  - unfold after. rewrite place_eq.
    destruct (on_tableb (Vec x y 0)); [| exact Hinv].
    destruct (dict_getitem DIRVECTOR_FROM_COMPASS_DIRECTION d) as [h | e] eqn:E;
      [| exact Hinv].
    simpl. intros _. apply (compass_name_of_dirvector d h E).
  - unfold after. rewrite move_eq. destruct (placed self) eqn:Hp; [| simpl; congruence].
    cbv zeta. destruct (on_tableb _); simpl; intros _; apply Hinv; reflexivity.
  - destruct (placed self) eqn:Hp.
    + rewrite (step_left_placed self Hp (Hinv eq_refl)). simpl. intros _.
      apply quarter_left_compass, Hinv. reflexivity.
    + unfold after. rewrite left_eq, Hp. simpl. congruence.
  - destruct (placed self) eqn:Hp.
    + rewrite (step_right_placed self Hp (Hinv eq_refl)). simpl. intros _.
      apply quarter_right_compass, Hinv. reflexivity.
    + unfold after. rewrite right_eq, Hp. simpl. congruence.
  - unfold after. rewrite report_eq. exact Hinv.
Qed.

Lemma reachable_placed_on_table (self : Robot) :
  Reachable self -> placed_on_table self.
Proof.
  induction 1 as [| o self _ IH].
  - unfold placed_on_table. simpl. discriminate.
  - apply step_placed_on_table, IH.
Qed.

Lemma reachable_facing_compass (self : Robot) :
  Reachable self -> placed_facing_compass self.
Proof.
  induction 1 as [| o self _ IH].
  - unfold placed_facing_compass. simpl. discriminate.
  - apply step_facing_compass, IH.
Qed.

(** C1. After [place(x, y, heading)] with both coordinates in [0, 4] and
    a heading among NORTH, SOUTH, EAST, WEST, called on any robot, the
    call returns [True], and [report()] right after returns the text
    "x,y,HEADING" with that very heading name. *)
Theorem place_then_report (self : Robot) (x y : Z) (name : string) :
  0 <= x <= 4 -> 0 <= y <= 4 -> In name compass_names ->
  let self' := snd (place x y (PyStr name) self) in
  fst (place x y (PyStr name) self) = Ok true /\
  report self' = (Ok (pose_text x y name), self').
Proof.
  intros Hx Hy Hname. cbv zeta.
  rewrite place_eq.
  assert (Hb : on_tableb (Vec x y 0) = true) by (apply on_tableb_spec; split; assumption).
  rewrite Hb.
  destruct (dirvector_of_compass_name name Hname) as [v Hv]. rewrite Hv.
  split; [reflexivity |].
  rewrite report_eq. simpl.
  destruct (compass_name_of_dirvector _ _ Hv) as [[= <-] _]. reflexivity.
Qed.

(** C2. In every reachable state a placed robot is on the table; every
    operation (place, move, left, right, report) keeps it so, and none
    turns [placed] from true back to false. *)
Theorem operations_keep_robot_on_table (o : op) (self : Robot) :
  Reachable self ->
  placed_on_table self /\
  placed_on_table (step o self) /\
  (placed self = true -> placed (step o self) = true).
Proof.
  intros Hreach.
  pose proof (reachable_placed_on_table self Hreach) as Hinv.
  split; [exact Hinv |].
  split; [apply step_placed_on_table, Hinv | apply step_keeps_placed].
Qed.

(** C3. For a placed robot, [move()] takes as candidate the position plus
    the heading vector.  A candidate off the table makes the call return
    [False] with the whole state as before; a candidate on the table
    makes it return [True] with the candidate as the new position and
    nothing else changed. *)
Theorem move_commits_or_rejects (self : Robot) :
  placed self = true ->
  let candidate := vec3_add (pos self) (heading_vector self) in
  (~ on_table candidate -> move self = (Ok false, self)) /\
  (on_table candidate -> move self = (Ok true, set_pos candidate self)).
Proof.
  intros Hp. cbv zeta. rewrite move_eq, Hp. cbv zeta.
  split; intros Hc.
  - apply on_tableb_false in Hc. rewrite Hc. reflexivity.
  - apply on_tableb_spec in Hc. rewrite Hc. reflexivity.
Qed.

(** C4. [place(x, y, heading)] with (x, y) off the table, or with a
    heading that is none of the four direction names, returns [False]
    and leaves position, heading vector and [placed] as they were. *)
Theorem place_rejects_and_keeps_state (self : Robot) (x y : Z) (d : pyval) :
  ~ on_table (Vec x y 0) \/ ~ In d (map PyStr compass_names) ->
  place x y d self = (Ok false, self).
Proof.
  intros H. rewrite place_eq.
  destruct (on_tableb (Vec x y 0)) eqn:Hb; [| reflexivity].
  destruct H as [H | H].
  - apply on_tableb_spec in Hb. contradiction.
  - rewrite (dirvector_missing d H). reflexivity.
Qed.

(** C5. On a robot that is not placed, [move()], [left()] and [right()]
    return [False] and change nothing, so [placed] stays false; and
    [report()] returns the not-placed message, which no placed robot
    ever reports. *)
Theorem unplaced_robot_rejects (self : Robot) :
  placed self = false ->
  move self = (Ok false, self) /\
  left ROT_LEFT self = (Ok false, self) /\
  right ROT_RIGHT self = (Ok false, self) /\
  report self = (Ok not_placed_message, self) /\
  (forall other, placed other = true ->
     fst (report other) <> Ok not_placed_message).
Proof.
  intros Hp.
  rewrite move_eq, left_eq, right_eq, report_eq, Hp.
  repeat (split; [reflexivity |]).
  intros other Ho. rewrite report_eq, Ho. simpl. unfold pose_text.
  destruct (py_str_of_int_head (vx (pos other))) as (c & rest & -> & Hc).
  simpl. unfold not_placed_message. intros [= Hhead _]. apply Hc. exact Hhead.
Qed.

(** C6. For a placed robot: [left()] then [right()], and [right()] then
    [left()], give back the state they started from, and so do four
    [left()] calls and four [right()] calls; one [left()] moves the
    heading one step along NORTH, WEST, SOUTH, EAST, NORTH and one
    [right()] one step along the reverse cycle; a turn succeeds and
    leaves the position alone. *)
Theorem turns_cycle (self : Robot) :
  Reachable self -> placed self = true ->
  steps [OpLeft; OpRight] self = self /\
  steps [OpRight; OpLeft] self = self /\
  steps [OpLeft; OpLeft; OpLeft; OpLeft] self = self /\
  steps [OpRight; OpRight; OpRight; OpRight] self = self /\
  (let name := get_compass_direction_from_dirvec (heading_vector self) in
   get_compass_direction_from_dirvec (heading_vector (step OpLeft self))
     = left_of name /\
   get_compass_direction_from_dirvec (heading_vector (step OpRight self))
     = right_of name) /\
  (left ROT_LEFT self = (Ok true, step OpLeft self) /\
   pos (step OpLeft self) = pos self) /\
  (right ROT_RIGHT self = (Ok true, step OpRight self) /\
   pos (step OpRight self) = pos self).
Proof.
  intros Hreach Hp.
  pose proof (reachable_facing_compass self Hreach Hp) as Hh.
  assert (Hl : left ROT_LEFT self = (Ok true, step OpLeft self))
    by (unfold after; rewrite left_eq, Hp; reflexivity).
  assert (Hr : right ROT_RIGHT self = (Ok true, step OpRight self))
    by (unfold after; rewrite right_eq, Hp; reflexivity).
  assert (Hpl : pos (step OpLeft self) = pos self)
    by (rewrite (step_left_placed self Hp Hh); reflexivity).
  assert (Hpr : pos (step OpRight self) = pos self)
    by (rewrite (step_right_placed self Hp Hh); reflexivity).
  cbv zeta; repeat match goal with |- _ /\ _ => split end;
    try assumption; clear Hl Hr Hpl Hpr Hreach;
    destruct self as [p h b]; simpl in Hp, Hh; subst b;
    apply compass_vectors_cases in Hh;
    destruct Hh as [-> | [-> | [-> | ->]]]; destruct p as [px py pz].
  all: cbn [after_all];
    repeat (match goal with
            | |- context [after _ _ OpLeft (mkRobot ?p ?h true)] =>
                rewrite (step_left_placed (mkRobot p h true)) by compass_side
            | |- context [after _ _ OpRight (mkRobot ?p ?h true)] =>
                rewrite (step_right_placed (mkRobot p h true)) by compass_side
            end;
            unfold set_heading_vector, quarter_left, quarter_right;
            cbn [heading_vector pos placed vx vy vz Z.opp]);
    vm_compute; reflexivity.
Qed.

(** C10. A placed robot, in any state reached from the initial one by
    [place], [move], [left] and [right] calls (and [report] calls), has
    one of the four unit vectors as its heading vector, so that its
    report ends in NORTH, SOUTH, EAST or WEST and never in ERROR.  The
    rotations are taken to be accurate to less than one half per
    component ([quarter_turns]). *)
Theorem placed_robot_faces_compass (self : Robot) :
  Reachable self -> placed self = true ->
  (heading_vector self = Vec 0 1 0 \/ heading_vector self = Vec 0 (-1) 0 \/
   heading_vector self = Vec (-1) 0 0 \/ heading_vector self = Vec 1 0 0) /\
  get_compass_direction_from_dirvec (heading_vector self) <> "ERROR" /\
  exists name, In name compass_names /\
    report self =
    (Ok (pose_text (vx (pos self)) (vy (pos self)) name), self).
Proof.
  intros Hreach Hp.
  pose proof (reachable_facing_compass self Hreach Hp) as Hh.
  split; [apply compass_vectors_cases, Hh |].
  pose proof (compass_vector_name _ Hh) as Hname.
  split.
  - intros E. rewrite E in Hname. unfold compass_names in Hname. simpl in Hname.
    intuition discriminate.
  - exists (get_compass_direction_from_dirvec (heading_vector self)).
    split; [exact Hname |]. rewrite report_eq, Hp. reflexivity.
Qed.
End StateMachine.

(* ================================================================= *)
(** ** The parser *)

Lemma split_on_not_nil (sep : ascii) (s : string) : split_on sep s <> [].
Proof.
  destruct s as [| c rest]; simpl; [discriminate |].
  destruct (Ascii.eqb c sep); [discriminate |].
  destruct (split_on sep rest); discriminate.
Qed.

Lemma py_getitem_nth {A : Type} (l : list A) (i : nat) (a : A) :
  nth_error l i = Some a -> py_getitem l (Z.of_nat i) = Ok a.
Proof.
  intros H. unfold py_getitem.
  assert (Hlt : (i < length l)%nat) by (apply nth_error_Some; congruence).
  destruct (Z.of_nat i <? 0) eqn:E0; [apply Z.ltb_lt in E0; lia |].
  rewrite E0. simpl orb.
  destruct (Z.of_nat (length l) <=? Z.of_nat i) eqn:E1; [apply Z.leb_le in E1; lia |].
  rewrite Nat2Z.id, H. reflexivity.
Qed.

Lemma py_getitem_0 {A : Type} (a : A) (l : list A) : py_getitem (a :: l) 0 = Ok a.
Proof. apply (py_getitem_nth (a :: l) 0 a). reflexivity. Qed.

Lemma py_getitem_1 {A : Type} (a b : A) (l : list A) :
  py_getitem (a :: b :: l) 1 = Ok b.
Proof. apply (py_getitem_nth (a :: b :: l) 1 b). reflexivity. Qed.

Lemma py_getitem_2 {A : Type} (a b c : A) (l : list A) :
  py_getitem (a :: b :: c :: l) 2 = Ok c.
Proof. apply (py_getitem_nth (a :: b :: c :: l) 2 c). reflexivity. Qed.

(** [int(s)] raises nothing but [ValueError]. *)
Lemma py_int_raises (s : string) (e : exn) : py_int s = Raise e -> e = ValueError.
Proof.
  unfold py_int.
  destruct (match rstrip (lstrip s) with
            | String "+" rest => (false, rest)
            | String "-" rest => (true, rest)
            | _ => (false, rstrip (lstrip s))
            end) as [negative digits].
  destruct digits as [| c rest]; [intros [= <-]; reflexivity |].
  destruct (Ascii.eqb_spec c "_") as [-> | Hc].
  - intros [= <-]; reflexivity.
  - assert (Hm : forall X (a b : X), match c with "_"%char => a | _ => b end = b).
    { intros X a b. destruct c as [[] [] [] [] [] [] [] []]; try reflexivity.
      contradiction Hc. reflexivity. }
    rewrite Hm.
    destruct (scan_digits (String c rest) 0 0 false) as [[v n] |];
      [| intros [= <-]; reflexivity].
    destruct (int_max_str_digits <? n)%nat; [intros [= <-]; reflexivity | discriminate].
Qed.

(** The method computes [parse_outcome] of the pieces of the line: it
    returns normally, and with the robot it was given. *)
Lemma parse_command_input_eq (command_str : string) (self : Robot) :
  parse_command_input command_str self =
  (Ok (parse_outcome (split_on " " command_str)), self).
Proof.
  unfold parse_command_input.
  pose proof (split_on_not_nil " " command_str) as Hne.
  destruct (split_on " " command_str) as [| v more]; [contradiction |]. clear Hne.
  unfold parse_outcome, COMMANDS_AND_ARGS, find, find_verb, fst, snd.
  unfold try_except, bind, lift, ret, raise.
  rewrite !py_getitem_0.
  destruct (String.eqb v "PLACE"); cbn [negb].
  - destruct more as [| block more']; [reflexivity |].
    rewrite py_getitem_1.
    change (py_getitem _ 0) with (Ok ("PLACE", [py_type_int; py_type_int; py_type_str])).
    cbn [Z.eqb length Nat.ltb Nat.leb Nat.eqb negb].
    destruct (split_on "," block) as [| a [| b [| c [| d fields]]]];
      try reflexivity.
    cbn [length Nat.eqb negb cast_params convert_all].
    unfold bind, lift, cast, ret.
    rewrite py_getitem_0.
    destruct (py_int a) as [m | e] eqn:Ea;
      [| apply py_int_raises in Ea; subst e; reflexivity].
    change (0 + 1) with 1. rewrite py_getitem_1.
    destruct (py_int b) as [n | e] eqn:Eb;
      [| apply py_int_raises in Eb; subst e; reflexivity].
    change (1 + 1) with 2. rewrite py_getitem_2.
    reflexivity.
  - destruct (String.eqb v "MOVE"); cbn [negb]; [zero_arity more |].
    destruct (String.eqb v "LEFT"); cbn [negb]; [zero_arity more |].
    destruct (String.eqb v "RIGHT"); cbn [negb]; [zero_arity more |].
    destruct (String.eqb v "REPORT"); cbn [negb]; [zero_arity more |].
    destruct (String.eqb v "HELP"); cbn [negb]; [zero_arity more |].
    destruct (String.eqb v "EXIT"); cbn [negb]; [zero_arity more |].
    reflexivity.
Qed.

Lemma convert_all_typed (types : list pytype) :
  forall fields params,
    convert_all types fields = Some params -> Forall2 has_type types params.
Proof.
  induction types as [| t types IH]; intros fields params; simpl.
  - intros [= <-]. constructor.
  - destruct t, fields as [| text fields]; try discriminate.
    + destruct (py_int text) as [n | e]; [| discriminate].
      destruct (convert_all types fields) as [ps |] eqn:E; [| discriminate].
      intros [= <-]. constructor; [exact I | apply (IH _ _ E)].
    + destruct (convert_all types fields) as [ps |] eqn:E; [| discriminate].
      intros [= <-]. constructor; [exact I | apply (IH _ _ E)].
Qed.

(** The parser answers with the failure marker or with a verb of the
    table and parameters of the types the table asks for. *)
Lemma parse_outcome_cases (pieces : list string) :
  parse_outcome pieces = parse_error \/
  exists types,
    In (fst (parse_outcome pieces), types) COMMANDS_AND_ARGS /\
    Forall2 has_type types (snd (parse_outcome pieces)).
Proof.
  unfold parse_outcome.
  destruct pieces as [| v more]; [left; reflexivity |].
  destruct (find (fun c => String.eqb v (fst c)) COMMANDS_AND_ARGS)
    as [[verb types] |] eqn:F; [| left; reflexivity].
  apply find_some in F. destruct F as [Hin _].
  destruct more as [| block more], types as [| t types];
    try (left; reflexivity).
  - right. exists []. split; [exact Hin | constructor].
  - cbv zeta.
    destruct (length (split_on "," block) =? length (t :: types))%nat;
      [| left; reflexivity].
    destruct (convert_all (t :: types) (split_on "," block)) as [params |] eqn:C;
      [| left; reflexivity].
    right. exists (t :: types). split; [exact Hin |].
    apply (convert_all_typed _ _ _ C).
Qed.

(** The entries of the command table, one by one. *)
Lemma command_table_cases (verb : string) (types : list pytype) :
  In (verb, types) COMMANDS_AND_ARGS ->
  (verb = "PLACE" /\ types = [py_type_int; py_type_int; py_type_str]) \/
  (types = [] /\
   (verb = "MOVE" \/ verb = "LEFT" \/ verb = "RIGHT" \/ verb = "REPORT" \/
    verb = "HELP" \/ verb = "EXIT")).
Proof.
  unfold COMMANDS_AND_ARGS. simpl.
  intros [H | [H | [H | [H | [H | [H | [H | []]]]]]]]; inversion H; subst; auto 10.
Qed.

Lemma split_on_no_space (a : string) :
  no_space a = true -> split_on " " a = [a].
Proof.
  induction a as [| c a IH]; simpl; [reflexivity |].
  destruct (Ascii.eqb c " "); simpl; [discriminate |].
  intros H. rewrite (IH H). reflexivity.
Qed.

Lemma split_on_space_app (a b : string) :
  no_space a = true ->
  split_on " " (a ++ String " " b) = a :: split_on " " b.
Proof.
  induction a as [| c a IH]; simpl; [reflexivity |].
  destruct (Ascii.eqb c " "); simpl; [discriminate |].
  intros H. rewrite (IH H). reflexivity.
Qed.

(** Only the first two pieces of a line count. *)
Lemma parse_outcome_two_pieces (v block : string) (more : list string) :
  parse_outcome (v :: block :: more) = parse_outcome [v; block].
Proof.
  reflexivity.
Qed.

Lemma parse_outcome_empty_block (v : string) (more : list string) :
  parse_outcome (v :: "" :: more) = parse_error.
Proof.
  unfold parse_outcome.
  destruct (find (fun c => String.eqb v (fst c)) COMMANDS_AND_ARGS)
    as [[verb types] |] eqn:F; [| reflexivity].
  apply find_some in F. destruct F as [Hin _].
  apply command_table_cases in Hin.
  destruct Hin as [[-> ->] | [-> _]]; reflexivity.
Qed.

(** C8, as amended.  The line is cut at every space.  The first piece is
    the verb and the second the parameter block, which is cut at every
    comma; pieces after the second are ignored, so text that follows a
    space after the parameter block does not change the result.  A
    second space right after the verb is a parse failure. *)
Theorem parser_cuts_at_every_space (self : Robot) (verb block rest : string) :
  no_space verb = true -> no_space block = true ->
  split_on " " (verb ++ " " ++ block ++ " " ++ rest)
    = verb :: block :: split_on " " rest /\
  parse_command_input (verb ++ " " ++ block ++ " " ++ rest) self
    = parse_command_input (verb ++ " " ++ block) self /\
  parse_command_input (verb ++ "  " ++ rest) self = (Ok parse_error, self) /\
  parse_command_input ("PLACE " ++ block) self
    = (Ok match split_on "," block with
          | [a; b; c] =>
              match py_int a, py_int b with
              | Ok m, Ok n => ("PLACE", [PyInt m; PyInt n; PyStr c])
              | _, _ => parse_error
              end
          | _ => parse_error
          end,
       self).
Proof.
  intros Hverb Hblock.
  assert (Hpieces : split_on " " (verb ++ " " ++ block ++ " " ++ rest)
                    = verb :: block :: split_on " " rest).
  { change (verb ++ " " ++ block ++ " " ++ rest)
      with (verb ++ String " " (block ++ String " " rest)).
    rewrite (split_on_space_app _ _ Hverb), (split_on_space_app _ _ Hblock).
    reflexivity. }
  split; [exact Hpieces |].
  rewrite !parse_command_input_eq, Hpieces.
  split; [| split].
  - change (verb ++ " " ++ block) with (verb ++ String " " block).
    rewrite (split_on_space_app _ _ Hverb), (split_on_no_space _ Hblock).
    rewrite parse_outcome_two_pieces. reflexivity.
  - change (verb ++ "  " ++ rest) with (verb ++ String " " (String " " rest)).
    rewrite (split_on_space_app _ _ Hverb).
    change (split_on " " (String " " rest)) with ("" :: split_on " " rest).
    rewrite parse_outcome_empty_block. reflexivity.
  - change ("PLACE " ++ block) with ("PLACE" ++ String " " block).
    rewrite (split_on_space_app "PLACE" block eq_refl), (split_on_no_space _ Hblock).
    unfold parse_outcome.
    change (find _ COMMANDS_AND_ARGS)
      with (Some ("PLACE", [py_type_int; py_type_int; py_type_str])).
    cbv zeta.
    destruct (split_on "," block) as [| a [| b [| c [| d fields]]]];
      try reflexivity.
    cbn [length Nat.eqb convert_all].
    destruct (py_int a) as [m | e]; [| reflexivity].
    destruct (py_int b) as [n | e]; reflexivity.
Qed.

(** C9. [parse_command_input] returns normally on every line, with the
    robot untouched.  What it returns is the pair ("error", []) or a verb
    of the command table with parameters of the types the table asks
    for.  It is the pair ("error", []) when the verb is not in the table,
    when the number of parameters supplied is not the number asked for,
    and when the text of an [int] parameter is refused by [int], as
    "1.0" is. *)
Theorem parse_command_input_never_raises (self : Robot) (command_str : string) :
  let pieces := split_on " " command_str in
  (exists verb params,
     parse_command_input command_str self = (Ok (verb, params), self) /\
     ((verb, params) = parse_error \/
      exists types,
        In (verb, types) COMMANDS_AND_ARGS /\ Forall2 has_type types params)) /\
  ((forall types, ~ In (hd "" pieces, types) COMMANDS_AND_ARGS) ->
   parse_command_input command_str self = (Ok parse_error, self)) /\
  (forall types,
     In (hd "" pieces, types) COMMANDS_AND_ARGS ->
     supplied_count pieces <> length types ->
     parse_command_input command_str self = (Ok parse_error, self)) /\
  (forall types block i text,
     In (hd "" pieces, types) COMMANDS_AND_ARGS ->
     nth_error pieces 1 = Some block ->
     nth_error types i = Some py_type_int ->
     nth_error (split_on "," block) i = Some text ->
     py_int text = Raise ValueError ->
     parse_command_input command_str self = (Ok parse_error, self)) /\
  py_int "1.0" = Raise ValueError /\
  parse_command_input "PLACE 1.0,2.0,EAST" self = (Ok parse_error, self).
Proof.
  cbv zeta. rewrite !parse_command_input_eq.
  split; [| split; [| split; [| split; [| split]]]].
  - destruct (parse_outcome (split_on " " command_str)) as [verb params] eqn:E.
    exists verb, params. split; [reflexivity |].
    pose proof (parse_outcome_cases (split_on " " command_str)) as H.
    rewrite E in H. exact H.
  - intros Hno. f_equal. f_equal.
    unfold parse_outcome.
    destruct (split_on " " command_str) as [| v more]; [reflexivity |].
    destruct (find (fun c => String.eqb v (fst c)) COMMANDS_AND_ARGS)
      as [[verb types] |] eqn:F; [| reflexivity].
    apply find_some in F. destruct F as [Hin Heq].
    apply String.eqb_eq in Heq. simpl in Heq. subst verb.
    exfalso. apply (Hno types). exact Hin.
  - intros types Hin Hcount. f_equal. f_equal.
    destruct (split_on " " command_str) as [| v more]; [reflexivity |].
    simpl in Hin. apply command_table_cases in Hin.
    destruct Hin as [[-> ->] | [-> Hv]].
    + destruct more as [| block more]; [reflexivity |].
      unfold parse_outcome.
      change (find _ COMMANDS_AND_ARGS)
        with (Some ("PLACE", [py_type_int; py_type_int; py_type_str])).
      cbv beta iota zeta. unfold supplied_count in Hcount.
      change (length [py_type_int; py_type_int; py_type_str]) with 3%nat in *.
      apply Nat.eqb_neq in Hcount. rewrite Hcount. reflexivity.
    + destruct more as [| block more].
      * exfalso. apply Hcount. reflexivity.
      * destruct Hv as [-> | [-> | [-> | [-> | [-> | ->]]]]]; reflexivity.
  - intros types block i text Hin Hblock Hty Htext Hint. f_equal. f_equal.
    destruct (split_on " " command_str) as [| v more]; [reflexivity |].
    simpl in Hin. apply command_table_cases in Hin.
    destruct Hin as [[-> ->] | [-> _]]; [| destruct i; discriminate Hty].
    destruct more as [| block' more]; [discriminate Hblock |].
    simpl in Hblock. injection Hblock as ->.
    unfold parse_outcome.
    change (find _ COMMANDS_AND_ARGS)
      with (Some ("PLACE", [py_type_int; py_type_int; py_type_str])).
    cbv zeta.
    destruct (split_on "," block) as [| a [| b [| c [| d fields]]]];
      try reflexivity.
    cbn [length Nat.eqb convert_all].
    destruct i as [| [| [| i]]]; simpl in Hty, Htext;
      try discriminate Hty; try (destruct i; discriminate Hty).
    + injection Htext as ->. rewrite Hint. reflexivity.
    + injection Htext as ->. rewrite Hint.
      destruct (py_int a); reflexivity.
  - reflexivity.
  - reflexivity.
Qed.

(* ================================================================= *)
(** ** The direction table *)

(** C7, as amended.  NORTH, SOUTH, EAST and WEST are stored with the
    vectors (0,1), (0,-1), (1,0) and (-1,0): EAST is +x and WEST is -x.
    A robot placed on the table with one of these names has that vector
    as its heading vector, and [move()] adds it to the position. *)
Theorem compass_displacements (self : Robot) (x y : Z) (name : string)
    (v : vec3 Z) :
  In (name, v) [("NORTH", Vec 0 1 0); ("SOUTH", Vec 0 (-1) 0);
                ("EAST", Vec 1 0 0); ("WEST", Vec (-1) 0 0)] ->
  on_table (Vec x y 0) ->
  dict_getitem DIRVECTOR_FROM_COMPASS_DIRECTION (PyStr name) = Ok v /\
  let robot := snd (place x y (PyStr name) self) in
  heading_vector robot = v /\
  (on_table (Vec (x + vx v) (y + vy v) 0) ->
   move robot = (Ok true, set_pos (Vec (x + vx v) (y + vy v) 0) robot)).
Proof.
  intros Hin Hxy. apply on_tableb_spec in Hxy. simpl in Hin.
  destruct Hin as [H | [H | [H | [H | []]]]]; inversion H; subst; clear H;
    (split; [reflexivity |]); cbv zeta; rewrite place_eq, Hxy;
    cbn [dict_getitem DIRVECTOR_FROM_COMPASS_DIRECTION pyval_eqb String.eqb
         Ascii.eqb Bool.eqb snd heading_vector vx vy];
    (split; [reflexivity |]); intros Hc; apply on_tableb_spec in Hc;
    rewrite move_eq; cbn [placed pos heading_vector]; unfold vec3_add;
    cbn [vx vy vz]; change (0 + 0) with 0; rewrite Hc; reflexivity.
Qed.

(* ================================================================= *)
(** ** Instances *)

(** The sample rotations are within the assumed accuracy. *)
Lemma binary64_quarter_turns : quarter_turns ROT_LEFT_binary64 ROT_RIGHT_binary64.
Proof.
  intros v Hv. apply compass_vectors_cases in Hv.
  destruct Hv as [-> | [-> | [-> | ->]]];
    unfold near_vec, near; repeat split; vm_compute; reflexivity.
Qed.

(** So are the exact quarter turns. *)
Lemma exact_quarter_turns :
  quarter_turns {| apply v := Vec (inject_Z (- vy v)) (inject_Z (vx v)) (inject_Z (vz v)) |}
                {| apply v := Vec (inject_Z (vy v)) (inject_Z (- vx v)) (inject_Z (vz v)) |}.
Proof.
  intros v Hv. apply compass_vectors_cases in Hv.
  destruct Hv as [-> | [-> | [-> | ->]]];
    unfold near_vec, near; repeat split; vm_compute; reflexivity.
Qed.

(** PLACE 1,2,EAST on a fresh robot. *)
Lemma reachable_after_place_1_2_east :
  reachable ROT_LEFT_binary64 ROT_RIGHT_binary64
    {| pos := Vec 1 2 0; heading_vector := Vec 1 0 0; placed := true |}.
Proof.
  apply (reachable_call ROT_LEFT_binary64 ROT_RIGHT_binary64
           (OpPlace 1 2 (PyStr "EAST")) init).
  apply reachable_init.
Qed.

(** C1 at PLACE 3,2,NORTH on a fresh robot. *)
Lemma place_then_report_witness :
  fst (place 3 2 (PyStr "NORTH") init) = Ok true /\
  report (snd (place 3 2 (PyStr "NORTH") init))
    = (Ok "3,2,NORTH", snd (place 3 2 (PyStr "NORTH") init)).
Proof.
  apply (place_then_report init 3 2 "NORTH"); [lia | lia | simpl; auto].
Defined.

(** C2 at a MOVE of the robot placed at 1,2 facing EAST. *)
Lemma operations_keep_robot_on_table_witness :
  let robot := {| pos := Vec 1 2 0; heading_vector := Vec 1 0 0; placed := true |} in
  placed_on_table robot /\
  placed_on_table (after ROT_LEFT_binary64 ROT_RIGHT_binary64 OpMove robot) /\
  (placed robot = true ->
   placed (after ROT_LEFT_binary64 ROT_RIGHT_binary64 OpMove robot) = true).
Proof.
  apply (operations_keep_robot_on_table ROT_LEFT_binary64 ROT_RIGHT_binary64 OpMove).
  exact reachable_after_place_1_2_east.
Defined.

(** C3 at the east edge: the candidate is (5,2). *)
Lemma move_commits_or_rejects_witness :
  let robot := {| pos := Vec 4 2 0; heading_vector := Vec 1 0 0; placed := true |} in
  (~ on_table (Vec 5 2 0) -> move robot = (Ok false, robot)) /\
  (on_table (Vec 5 2 0) -> move robot = (Ok true, set_pos (Vec 5 2 0) robot)).
Proof.
  apply (move_commits_or_rejects
           {| pos := Vec 4 2 0; heading_vector := Vec 1 0 0; placed := true |}).
  reflexivity.
Defined.

(** C4 at PLACE -1,7,EAST and at a direction that is no compass name. *)
Lemma place_rejects_and_keeps_state_witness :
  place (-1) 7 (PyStr "EAST") init = (Ok false, init) /\
  place 1 2 (PyStr "UP") init = (Ok false, init).
Proof.
  split.
  - apply (place_rejects_and_keeps_state init (-1) 7 (PyStr "EAST")).
    left. unfold on_table. simpl. lia.
  - apply (place_rejects_and_keeps_state init 1 2 (PyStr "UP")).
    right. simpl. intuition discriminate.
Defined.

(** C5 at the fresh robot. *)
Lemma unplaced_robot_rejects_witness :
  move init = (Ok false, init) /\
  left ROT_LEFT_binary64 init = (Ok false, init) /\
  right ROT_RIGHT_binary64 init = (Ok false, init) /\
  report init = (Ok not_placed_message, init) /\
  (forall other, placed other = true ->
     fst (report other) <> Ok not_placed_message).
Proof.
  apply (unplaced_robot_rejects ROT_LEFT_binary64 ROT_RIGHT_binary64 init).
  reflexivity.
Defined.

(** C6 at the robot placed at 1,2 facing EAST, on the sample rotations. *)
Lemma turns_cycle_witness :
  let robot := {| pos := Vec 1 2 0; heading_vector := Vec 1 0 0; placed := true |} in
  after_all ROT_LEFT_binary64 ROT_RIGHT_binary64 [OpLeft; OpRight] robot = robot /\
  after ROT_LEFT_binary64 ROT_RIGHT_binary64 OpLeft robot
    = {| pos := Vec 1 2 0; heading_vector := Vec 0 1 0; placed := true |}.
Proof.
  cbv zeta. split.
  - apply (turns_cycle ROT_LEFT_binary64 ROT_RIGHT_binary64 binary64_quarter_turns
             _ reachable_after_place_1_2_east eq_refl).
  - reflexivity.
Defined.

(** C10 after LEFT, LEFT, MOVE, RIGHT from 1,2,EAST, on the sample
    rotations. *)
Lemma placed_robot_faces_compass_witness :
  get_compass_direction_from_dirvec
    (heading_vector
       (after_all ROT_LEFT_binary64 ROT_RIGHT_binary64
          [OpLeft; OpLeft; OpMove; OpRight]
          {| pos := Vec 1 2 0; heading_vector := Vec 1 0 0; placed := true |}))
  <> "ERROR".
Proof.
  apply (placed_robot_faces_compass ROT_LEFT_binary64 ROT_RIGHT_binary64
           binary64_quarter_turns).
  - cbn [after_all]. do 4 apply reachable_call. exact reachable_after_place_1_2_east.
  - reflexivity.
Defined.

(** C7, as amended, at PLACE 1,2,EAST. *)
Lemma compass_displacements_witness :
  dict_getitem DIRVECTOR_FROM_COMPASS_DIRECTION (PyStr "EAST") = Ok (Vec 1 0 0) /\
  pos (snd (move (snd (place 1 2 (PyStr "EAST") init)))) = Vec 2 2 0.
Proof.
  destruct (compass_displacements init 1 2 "EAST" (Vec 1 0 0)) as (Hd & Hh & Hm).
  - simpl. auto.
  - unfold on_table. simpl. lia.
  - split; [exact Hd |]. rewrite Hm; [reflexivity |]. unfold on_table. simpl. lia.
Defined.

(** C8, as amended, at a line with trailing text and at one with two
    spaces after the verb. *)
Lemma parser_cuts_at_every_space_witness :
  parse_command_input "PLACE 1,2,NORTH junk" init
    = parse_command_input "PLACE 1,2,NORTH" init /\
  parse_command_input "PLACE  1,2,NORTH" init = (Ok parse_error, init).
Proof.
  split.
  - apply (parser_cuts_at_every_space init "PLACE" "1,2,NORTH" "junk"); reflexivity.
  - apply (parser_cuts_at_every_space init "PLACE" "" "1,2,NORTH"); reflexivity.
Defined.

(** C7 as the specification words it fails: EAST is not stored as
    (-1,0) nor WEST as (1,0), and a robot at (1,2) facing EAST moves to
    (2,2), not to (0,2). *)
Lemma east_is_not_minus_x :
  ~ (dict_getitem DIRVECTOR_FROM_COMPASS_DIRECTION (PyStr "NORTH") = Ok (Vec 0 1 0) /\
     dict_getitem DIRVECTOR_FROM_COMPASS_DIRECTION (PyStr "SOUTH") = Ok (Vec 0 (-1) 0) /\
     dict_getitem DIRVECTOR_FROM_COMPASS_DIRECTION (PyStr "EAST") = Ok (Vec (-1) 0 0) /\
     dict_getitem DIRVECTOR_FROM_COMPASS_DIRECTION (PyStr "WEST") = Ok (Vec 1 0 0))
  /\ pos (snd (move (snd (place 1 2 (PyStr "EAST") init)))) <> Vec 0 2 0.
Proof.
  split.
  - intros (_ & _ & HE & _). discriminate HE.
  - discriminate.
Qed.

(** C8 as the specification words it fails: text after the parameter
    block, and a space after the last comma, are not parse failures. *)
Lemma trailing_text_is_accepted :
  fst (parse_command_input "PLACE 1,2,NORTH junk" init)
    = Ok ("PLACE", [PyInt 1; PyInt 2; PyStr "NORTH"]) /\
  fst (parse_command_input "PLACE 1,2,NORTH junk" init) <> Ok parse_error /\
  fst (parse_command_input "PLACE 1,2, NORTH" init)
    = Ok ("PLACE", [PyInt 1; PyInt 2; PyStr ""]) /\
  fst (parse_command_input "PLACE 1,2, NORTH" init) <> Ok parse_error.
Proof.
  repeat split; try reflexivity; discriminate.
Qed.

(* ================================================================= *)
(** ** The tests of [test_robot.py] *)

Example test_example_case_a :
  run_test ["PLACE 0,0,NORTH"; "MOVE"; "REPORT"] = Ok "0,1,NORTH".
Proof. vm_compute. reflexivity. Qed.

Example test_example_case_b :
  run_test ["PLACE 0,0,NORTH"; "LEFT"; "REPORT"] = Ok "0,0,WEST".
Proof. vm_compute. reflexivity. Qed.

Example test_example_case_c :
  run_test ["PLACE 1,2,EAST"; "MOVE"; "MOVE"; "LEFT"; "MOVE"; "REPORT"]
  = Ok "3,3,NORTH".
Proof. vm_compute. reflexivity. Qed.

Example test_place :
  run_test ["PLACE 3,2,NORTH"; "REPORT"] = Ok "3,2,NORTH".
Proof. vm_compute. reflexivity. Qed.

Example test_move :
  run_test ["PLACE 3,2,NORTH"; "MOVE"; "REPORT"] = Ok "3,3,NORTH".
Proof. vm_compute. reflexivity. Qed.

Example test_left :
  run_test ["PLACE 3,2,NORTH"; "LEFT"; "REPORT"] = Ok "3,2,WEST".
Proof. vm_compute. reflexivity. Qed.

Example test_forget_place :
  run_test ["MOVE"; "MOVE"; "LEFT"; "MOVE"; "REPORT"] = Ok not_placed_message.
Proof. vm_compute. reflexivity. Qed.

Example test_place_override :
  run_test ["MOVE"; "MOVE"; "LEFT"; "PLACE 1,2,EAST"; "MOVE"; "REPORT";
            "PLACE 1,2,EAST"; "REPORT"]
  = Ok "1,2,EAST".
Proof. vm_compute. reflexivity. Qed.

Example test_right :
  run_test ["PLACE 3,2,SOUTH"; "RIGHT"; "REPORT"] = Ok "3,2,WEST".
Proof. vm_compute. reflexivity. Qed.

Example test_not_moving_out_of_bounds :
  run_test ["PLACE 1,2,EAST"; "MOVE"; "MOVE"; "MOVE"; "MOVE"; "MOVE"; "REPORT"]
  = Ok "4,2,EAST".
Proof. vm_compute. reflexivity. Qed.

Example test_complex_move :
  run_test ["PLACE 3,3,NORTH"; "MOVE"; "LEFT"; "MOVE"; "LEFT"; "MOVE"; "RIGHT";
            "LEFT"; "LEFT"; "MOVE"; "REPORT"]
  = Ok "3,3,EAST".
Proof. vm_compute. reflexivity. Qed.

Example test_not_placing_out_of_bounds :
  run_test ["PLACE -1,7,EAST"; "REPORT"] = Ok not_placed_message.
Proof. vm_compute. reflexivity. Qed.

Example test_wrong_input_1 :
  run_test ["PLACE1,2,EAST"; "REPORT"] = Ok not_placed_message.
Proof. vm_compute. reflexivity. Qed.

Example test_wrong_input_2 :
  run_test ["PLACE 1 2 EAST"; "REPORT"] = Ok not_placed_message.
Proof. vm_compute. reflexivity. Qed.

Example test_wrong_input_3 :
  run_test ["PLACE 1.0,2.0,EAST"; "REPORT"] = Ok not_placed_message.
Proof. vm_compute. reflexivity. Qed.

Example test_wrong_input_recovery :
  run_test ["PLACE 1 2 EAST"; "PLACE 3,4,WEST"; "REPORT"] = Ok "3,4,WEST".
Proof. vm_compute. reflexivity. Qed.

Example test_no_input : run_test [] = Ok "".
Proof. vm_compute. reflexivity. Qed.

(* ================================================================= *)
(** * More of the code *)

(** ** Heading vectors and their names *)

(** On integers, and against 0, 1 or -1, [np.isclose] is equality: the
    tolerance is below one. *)
Lemma np_isclose_unit (a b : Z) :
  -1 <= b <= 1 -> (np_isclose a b = true <-> a = b).
Proof.
  intros Hb. unfold np_isclose. rewrite Qle_bool_iff.
  assert (Hd : (inject_Z a - inject_Z b == inject_Z (a - b))%Q).
  { unfold Z.sub. rewrite inject_Z_plus, inject_Z_opp. reflexivity. }
  rewrite Hd.
  change (Qabs (inject_Z (a - b))) with (inject_Z (Z.abs (a - b))).
  change (Qabs (inject_Z b)) with (inject_Z (Z.abs b)).
  assert (Htol : (0 <= isclose_atol + isclose_rtol * inject_Z (Z.abs b) < 1)%Q).
  { assert (Hc : Z.abs b = 0 \/ Z.abs b = 1) by lia.
    destruct Hc as [-> | ->]; split; vm_compute; congruence. }
  set (tol := (isclose_atol + isclose_rtol * inject_Z (Z.abs b))%Q) in *.
  clearbody tol. clear Hd. destruct Htol as [Htol0 Htol1].
  split.
  - intros H.
    assert (H1 : (inject_Z (Z.abs (a - b)) < inject_Z 1)%Q).
    { change (inject_Z 1) with 1%Q. apply (Qle_lt_trans _ tol); assumption. }
    rewrite <- Zlt_Qlt in H1. lia.
  - intros ->. rewrite Z.sub_diag. change (inject_Z (Z.abs 0)) with 0%Q. exact Htol0.
Qed.

Lemma np_isclose_all_unit (v w : vec3 Z) :
  In w compass_vectors -> (np_isclose_all v w = true <-> v = w).
Proof.
  intros Hw. apply compass_vectors_cases in Hw.
  unfold np_isclose_all. rewrite !andb_true_iff.
  destruct v as [a b c].
  destruct Hw as [-> | [-> | [-> | ->]]]; simpl vx; simpl vy; simpl vz;
    rewrite !np_isclose_unit by lia;
    (split; [intros [[-> ->] ->]; reflexivity | intros [= -> -> ->]; auto]).
Qed.

Lemma np_isclose_all_other (v w : vec3 Z) :
  In w compass_vectors -> v <> w -> np_isclose_all v w = false.
Proof.
  intros Hw Hne. destruct (np_isclose_all v w) eqn:E; [| reflexivity].
  apply (np_isclose_all_unit v w Hw) in E. contradiction.
Qed.

(** X1. [get_compass_direction_from_dirvec] and the direction table are
    inverse to each other on integer vectors: for a vector of the table
    the name returned is the key that vector is stored under, and every
    other integer vector gets "ERROR" (the tolerance of [np.isclose]
    lets no second integer vector through). *)
Theorem compass_direction_exact (v : vec3 Z) :
  (In v compass_vectors ->
   dict_getitem DIRVECTOR_FROM_COMPASS_DIRECTION
     (PyStr (get_compass_direction_from_dirvec v)) = Ok v) /\
  (~ In v compass_vectors -> get_compass_direction_from_dirvec v = "ERROR").
Proof.
  split.
  - intros H. apply compass_vectors_cases in H.
    destruct H as [-> | [-> | [-> | ->]]]; vm_compute; reflexivity.
  - intros H. unfold get_compass_direction_from_dirvec.
    rewrite !np_isclose_all_other; try reflexivity;
      try (unfold compass_vectors; simpl; auto 6);
      intros ->; apply H; unfold compass_vectors; simpl; auto 6.
Qed.

(** ** Placing and moving *)

(** X2. A [place] that succeeds does not depend on the robot it is
    called on: any other robot gets the same answer and the same state,
    whose position is (x, y, 0), whose heading vector is the table entry
    of the direction and which is placed. *)
Theorem place_overrides_previous_state (s1 s2 : Robot) (x y : Z) (d : pyval) :
  fst (place x y d s1) = Ok true ->
  place x y d s2 = place x y d s1 /\
  pos (snd (place x y d s1)) = Vec x y 0 /\
  placed (snd (place x y d s1)) = true /\
  dict_getitem DIRVECTOR_FROM_COMPASS_DIRECTION d
    = Ok (heading_vector (snd (place x y d s1))).
Proof.
  rewrite !place_eq.
  destruct (on_tableb (Vec x y 0)); [| discriminate].
  destruct (dict_getitem DIRVECTOR_FROM_COMPASS_DIRECTION d); [| discriminate].
  intros _. repeat split.
Qed.

Lemma move_step (self : Robot) :
  placed self = true -> on_table (pos self) ->
  In (heading_vector self) compass_vectors ->
  snd (move self) =
  set_pos (Vec (clamp (vx (pos self) + vx (heading_vector self)))
               (clamp (vy (pos self) + vy (heading_vector self)))
               (vz (pos self)))
          self.
Proof.
  intros Hp [Hx Hy] Hh. rewrite move_eq, Hp. cbv zeta.
  destruct self as [[x y z] h b]. simpl in *. subst b.
  apply compass_vectors_cases in Hh.
  unfold clamp, TABLE_DIM_MIN, TABLE_DIM_MAX.
  destruct Hh as [-> | [-> | [-> | ->]]]; unfold vec3_add; simpl vx; simpl vy; simpl vz;
    match goal with |- context [on_tableb ?p] => destruct (on_tableb p) eqn:E end;
    [ apply on_tableb_spec in E | apply on_tableb_false in E
    | apply on_tableb_spec in E | apply on_tableb_false in E
    | apply on_tableb_spec in E | apply on_tableb_false in E
    | apply on_tableb_spec in E | apply on_tableb_false in E ];
    unfold on_table in E; simpl in E; unfold set_pos; simpl;
    f_equal; f_equal; lia.
Qed.

(** X3. [n] calls of [move] on a placed robot that is on the table and
    faces a compass direction leave it where [n] steps along the heading
    lead, cut off at the edge of the table: each coordinate is the
    clamped sum, and heading, height and [placed] are as before. *)
Theorem moves_stop_at_the_edge (n : nat) (self : Robot) :
  placed self = true -> on_table (pos self) ->
  In (heading_vector self) compass_vectors ->
  move_times n self =
  set_pos (Vec (clamp (vx (pos self) + Z.of_nat n * vx (heading_vector self)))
               (clamp (vy (pos self) + Z.of_nat n * vy (heading_vector self)))
               (vz (pos self)))
          self.
Proof.
  revert self. induction n as [| n IH]; intros self Hp Hon Hh.
  - destruct self as [[x y z] h b]. destruct Hon as [Hx Hy].
    cbn [pos heading_vector placed vx vy vz move_times] in *.
    unfold set_pos, clamp, TABLE_DIM_MIN, TABLE_DIM_MAX.
    cbn [pos heading_vector placed vx vy vz]. change (Z.of_nat 0) with 0.
    f_equal. f_equal; lia.
  - cbn [move_times]. rewrite (move_step self Hp Hon Hh).
    rewrite IH.
    + destruct self as [[x y z] h b]. destruct Hon as [Hx Hy].
      cbn [pos heading_vector placed vx vy vz] in *.
      apply compass_vectors_cases in Hh. rewrite Nat2Z.inj_succ.
      unfold set_pos, clamp, TABLE_DIM_MIN, TABLE_DIM_MAX.
      cbn [pos heading_vector placed vx vy vz].
      destruct Hh as [-> | [-> | [-> | ->]]]; cbn [vx vy vz];
        f_equal; f_equal; lia.
    + exact Hp.
    + unfold set_pos, on_table, clamp, TABLE_DIM_MIN, TABLE_DIM_MAX.
      cbn [pos vx vy]. lia.
    + exact Hh.
Qed.

(** ** Turning round *)

Lemma step_move_on_table (ROT_LEFT ROT_RIGHT : Rotation) (self : Robot) :
  placed self = true ->
  on_table (vec3_add (pos self) (heading_vector self)) ->
  after ROT_LEFT ROT_RIGHT OpMove self
  = set_pos (vec3_add (pos self) (heading_vector self)) self.
Proof.
  intros Hp Hc. unfold after. rewrite move_eq, Hp. cbv zeta.
  apply on_tableb_spec in Hc. rewrite Hc. reflexivity.
Qed.

(** A placed robot that the state machine can reach stands at height
    zero. *)
Lemma reachable_height_zero (ROT_LEFT ROT_RIGHT : Rotation) (self : Robot) :
  quarter_turns ROT_LEFT ROT_RIGHT ->
  reachable ROT_LEFT ROT_RIGHT self ->
  placed self = true -> vz (pos self) = 0.
Proof.
  intros Hq Hreach. induction Hreach as [| o self Hreach IH].
  - discriminate.
  - pose proof (reachable_facing_compass _ _ Hq self Hreach) as Hface.
    destruct o as [x y d | | | |]; unfold after.
    + rewrite place_eq.
      destruct (on_tableb (Vec x y 0)); [| exact IH].
      destruct (dict_getitem DIRVECTOR_FROM_COMPASS_DIRECTION d); [| exact IH].
      reflexivity.
    + rewrite move_eq. destruct (placed self) eqn:Hp; [| simpl; congruence].
      cbv zeta. destruct (on_tableb _); simpl; intros _; [| apply IH; reflexivity].
      rewrite (IH eq_refl).
      specialize (Hface Hp). apply compass_vectors_cases in Hface.
      destruct Hface as [-> | [-> | [-> | ->]]]; reflexivity.
    + rewrite left_eq. destruct (placed self) eqn:Hp; simpl; [| congruence].
      intros _. apply IH. reflexivity.
    + rewrite right_eq. destruct (placed self) eqn:Hp; simpl; [| congruence].
      intros _. apply IH. reflexivity.
    + rewrite report_eq. exact IH.
Qed.

(** X4. MOVE, LEFT, LEFT, MOVE, LEFT, LEFT brings a placed robot back to
    the state it started from, whenever the first MOVE is not blocked by
    the edge. *)
Theorem there_and_back (ROT_LEFT ROT_RIGHT : Rotation) (self : Robot) :
  quarter_turns ROT_LEFT ROT_RIGHT ->
  reachable ROT_LEFT ROT_RIGHT self ->
  placed self = true ->
  on_table (vec3_add (pos self) (heading_vector self)) ->
  after_all ROT_LEFT ROT_RIGHT
    [OpMove; OpLeft; OpLeft; OpMove; OpLeft; OpLeft] self = self.
Proof.
  intros Hq Hreach Hp Hc.
  pose proof (reachable_facing_compass _ _ Hq self Hreach Hp) as Hh.
  pose proof (reachable_placed_on_table _ _ self Hreach Hp) as Hon.
  destruct self as [[x y z] h b]. cbn [pos heading_vector placed] in *. subst b.
  cbn [after_all].
  rewrite (step_move_on_table ROT_LEFT ROT_RIGHT
             {| pos := Vec x y z; heading_vector := h; placed := true |}
             eq_refl Hc).
  apply compass_vectors_cases in Hh.
  destruct Hon as [Hx Hy]. destruct Hc as [Hcx Hcy].
  unfold vec3_add in *. cbn [vx vy vz] in *.
  destruct Hh as [-> | [-> | [-> | ->]]]; cbn [vx vy vz] in *;
    unfold set_pos; cbn [pos heading_vector placed];
    repeat (match goal with
            | |- context [after _ _ OpLeft (mkRobot ?p ?h true)] =>
                rewrite (step_left_placed _ _ Hq (mkRobot p h true)) by compass_side
            | |- context [after _ _ OpMove (mkRobot ?p ?h true)] =>
                rewrite (step_move_on_table ROT_LEFT ROT_RIGHT (mkRobot p h true))
                  by (first [ reflexivity
                            | unfold on_table, vec3_add;
                              cbn [pos heading_vector vx vy vz]; lia ])
            end;
            unfold set_pos, set_heading_vector, quarter_left, vec3_add;
            cbn [pos heading_vector placed vx vy vz Z.opp]);
    f_equal; f_equal; lia.
Qed.

(** ** The command loop *)

Lemma split_on_singleton (sep : ascii) (s v : string) :
  split_on sep s = [v] -> s = v.
Proof.
  revert v. induction s as [| c rest IH]; intros v; simpl.
  - intros [= <-]. reflexivity.
  - destruct (Ascii.eqb c sep).
    + intros [= _ H]. exfalso. apply (split_on_not_nil sep rest). exact H.
    + destruct (split_on sep rest) as [| piece pieces] eqn:E.
      * exfalso. apply (split_on_not_nil sep rest). exact E.
      * intros [= <- ->]. rewrite (IH piece eq_refl). reflexivity.
Qed.

(** What the parser can answer: the failure marker, PLACE with two
    integers and a string, or a verb without parameters, the latter only
    for a line that is that verb and nothing else. *)
Lemma parse_outcome_shape (command_str : string) :
  parse_outcome (split_on " " command_str) = parse_error \/
  (exists x y d,
     parse_outcome (split_on " " command_str)
     = ("PLACE", [PyInt x; PyInt y; PyStr d])) \/
  (In command_str plain_verbs /\
   parse_outcome (split_on " " command_str) = (command_str, [])).
Proof.
  unfold parse_outcome.
  destruct (split_on " " command_str) as [| v more] eqn:Hs; [left; reflexivity |].
  destruct (find (fun c => String.eqb v (fst c)) COMMANDS_AND_ARGS)
    as [[verb types] |] eqn:F; [| left; reflexivity].
  apply find_some in F. destruct F as [Hin Heq].
  apply String.eqb_eq in Heq. simpl in Heq. subst verb.
  apply command_table_cases in Hin.
  destruct Hin as [[-> ->] | [-> Hv]].
  - destruct more as [| block more]; [left; reflexivity |]. cbv zeta.
    destruct (split_on "," block) as [| a [| b [| c [| d fields]]]];
      try (left; reflexivity).
    cbn [length Nat.eqb convert_all].
    destruct (py_int a) as [m | e]; [| left; reflexivity].
    destruct (py_int b) as [n | e]; [| left; reflexivity].
    right. left. exists m, n, c. reflexivity.
  - destruct more as [| block more]; [| left; reflexivity].
    right. right. apply split_on_singleton in Hs. subst command_str.
    split; [| reflexivity].
    unfold plain_verbs. simpl.
    destruct Hv as [-> | [-> | [-> | [-> | [-> | ->]]]]]; auto 10.
Qed.

Lemma place_returns (x y : Z) (d : pyval) (self : Robot) :
  exists b, place x y d self = (Ok b, snd (place x y d self)).
Proof.
  rewrite place_eq.
  destruct (on_tableb (Vec x y 0)); [| exists false; reflexivity].
  destruct (dict_getitem DIRVECTOR_FROM_COMPASS_DIRECTION d);
    [exists true | exists false]; reflexivity.
Qed.

Section CommandLoop.
Variables ROT_LEFT ROT_RIGHT : Rotation.

#[local] Abbreviation step := (after ROT_LEFT ROT_RIGHT).
#[local] Abbreviation turn := (run_line ROT_LEFT ROT_RIGHT).
#[local] Abbreviation session := (exec_commands ROT_LEFT ROT_RIGHT).

Lemma run_line_eq (command_str : string) (self : Robot) :
  turn command_str self =
  execute_parsed_command ROT_LEFT ROT_RIGHT
    (fst (parse_outcome (split_on " " command_str)))
    (snd (parse_outcome (split_on " " command_str))) self.
Proof.
  unfold run_line, bind. rewrite parse_command_input_eq. reflexivity.
Qed.

Lemma execute_place (x y : Z) (d : string) (self : Robot) :
  execute_parsed_command ROT_LEFT ROT_RIGHT "PLACE" [PyInt x; PyInt y; PyStr d] self
  = (Ok "", step (OpPlace x y (PyStr d)) self).
Proof.
  unfold execute_parsed_command.
  change (String.eqb "PLACE" "PLACE") with true. cbv iota.
  unfold bind, lift. rewrite py_getitem_0, py_getitem_1, py_getitem_2.
  unfold as_int, ret. unfold after.
  destruct (place_returns x y (PyStr d) self) as [b ->]. reflexivity.
Qed.

Lemma execute_plain (verb : string) (self : Robot) :
  In verb plain_verbs ->
  execute_parsed_command ROT_LEFT ROT_RIGHT verb [] self =
  if String.eqb verb "MOVE" then (Ok "", step OpMove self)
  else if String.eqb verb "LEFT" then (Ok "", step OpLeft self)
  else if String.eqb verb "RIGHT" then (Ok "", step OpRight self)
  else if String.eqb verb "REPORT" then report self
  else if String.eqb verb "EXIT" then (Raise (SystemExit 0), self)
  else (Ok "", self).
Proof.
  unfold plain_verbs. simpl.
  intros [<- | [<- | [<- | [<- | [<- | [<- | []]]]]]];
    unfold execute_parsed_command, after, bind; string_tests;
    try reflexivity.
  - rewrite move_eq. destruct (placed self); [| reflexivity].
    cbv zeta. destruct (on_tableb _); reflexivity.
  - rewrite left_eq. destruct (placed self); reflexivity.
  - rewrite right_eq. destruct (placed self); reflexivity.
Qed.

Lemma execute_error (self : Robot) :
  execute_parsed_command ROT_LEFT ROT_RIGHT (fst parse_error) (snd parse_error) self
  = (Ok "", self).
Proof. reflexivity. Qed.

(** The state after a turn of the loop is the state after one call of
    the state machine. *)
Lemma run_line_is_a_call (command_str : string) (self : Robot) :
  exists o, snd (turn command_str self) = step o self.
Proof.
  rewrite run_line_eq.
  destruct (parse_outcome_shape command_str) as [-> | [(x & y & d & ->) | [Hin ->]]].
  - exists OpReport. rewrite execute_error. unfold after. rewrite report_eq. reflexivity.
  - exists (OpPlace x y (PyStr d)). cbn [fst snd]. rewrite execute_place. reflexivity.
  - cbn [fst snd]. rewrite (execute_plain _ self Hin).
    unfold plain_verbs in Hin. simpl in Hin.
    destruct Hin as [<- | [<- | [<- | [<- | [<- | [<- | []]]]]]]; string_tests.
    + exists OpMove. reflexivity.
    + exists OpLeft. reflexivity.
    + exists OpRight. reflexivity.
    + exists OpReport. reflexivity.
    + exists OpReport. unfold after. rewrite report_eq. reflexivity.
    + exists OpReport. unfold after. rewrite report_eq. reflexivity.
Qed.

(** X5. One turn of the command loop raises nothing on any line but the
    line EXIT, on which it raises [SystemExit(0)] with the robot
    unchanged: no [IndexError] from [params[0..2]] and no [TypeError]
    from [place] escapes, since the parser hands PLACE exactly two
    integers and a string. *)
Theorem only_exit_leaves_the_loop (command_str : string) (self : Robot) :
  (command_str = "EXIT" ->
   turn command_str self = (Raise (SystemExit 0), self)) /\
  (command_str <> "EXIT" ->
   exists output, fst (turn command_str self) = Ok output).
Proof.
  split.
  - intros ->. reflexivity.
  - intros Hne. rewrite run_line_eq.
    destruct (parse_outcome_shape command_str) as [-> | [(x & y & d & ->) | [Hin ->]]].
    + exists "". reflexivity.
    + exists "". cbn [fst snd]. rewrite execute_place. reflexivity.
    + cbn [fst snd]. rewrite (execute_plain _ self Hin).
      unfold plain_verbs in Hin. simpl in Hin.
      destruct Hin as [<- | [<- | [<- | [<- | [<- | [<- | []]]]]]];
        string_tests; try (exists ""; reflexivity).
      * rewrite report_eq. eexists. reflexivity.
      * contradiction Hne. reflexivity.
Qed.

(** X6. A line the parser rejects has no effect: the "error" verb falls
    through to the default case, the robot is unchanged and the output
    is empty. *)
Theorem rejected_line_changes_nothing (command_str : string) (self : Robot) :
  fst (parse_command_input command_str self) = Ok parse_error ->
  turn command_str self = (Ok "", self).
Proof.
  rewrite parse_command_input_eq. intros [= H].
  rewrite run_line_eq, H. reflexivity.
Qed.

(** X7. Only REPORT answers: on the line REPORT one turn of the loop is
    [report()], and on every other line that does not exit the output is
    the empty string. *)
Theorem only_report_answers (command_str : string) (self : Robot) :
  (command_str = "REPORT" -> turn command_str self = report self) /\
  (command_str <> "REPORT" -> command_str <> "EXIT" ->
   fst (turn command_str self) = Ok "").
Proof.
  split.
  - intros ->. reflexivity.
  - intros Hr He. rewrite run_line_eq.
    destruct (parse_outcome_shape command_str) as [-> | [(x & y & d & ->) | [Hin ->]]].
    + reflexivity.
    + cbn [fst snd]. rewrite execute_place. reflexivity.
    + cbn [fst snd]. rewrite (execute_plain _ self Hin).
      unfold plain_verbs in Hin. simpl in Hin.
      destruct Hin as [<- | [<- | [<- | [<- | [<- | [<- | []]]]]]];
        string_tests; try reflexivity.
      * contradiction Hr. reflexivity.
      * contradiction He. reflexivity.
Qed.

Lemma session_cons (c : string) (commands : list string) (output : string)
    (self : Robot) :
  session (c :: commands) output self =
  match turn c self with
  | (Ok output', self') => session commands output' self'
  | (Raise e, self') => (Raise e, self')
  end.
Proof.
  cbn [exec_commands]. unfold run_line, bind.
  destruct (parse_command_input c self) as [[parsed | e] self']; reflexivity.
Qed.

Lemma session_reachable (commands : list string) :
  forall output self,
    reachable ROT_LEFT ROT_RIGHT self ->
    reachable ROT_LEFT ROT_RIGHT (snd (session commands output self)).
Proof.
  induction commands as [| c commands IH]; intros output self Hreach.
  - exact Hreach.
  - rewrite session_cons.
    destruct (run_line_is_a_call c self) as [o Ho].
    destruct (turn c self) as [[output' | e] self'] eqn:E; simpl in Ho; subst self'.
    + apply IH. apply reachable_call. exact Hreach.
    + simpl. apply reachable_call. exact Hreach.
Qed.

(** X8. Whatever lines are fed to a fresh robot, the state at the end of
    the session is one the state machine can reach, so a placed robot is
    on the table; with accurate rotations it also faces one of the four
    directions and stands at height zero. *)
Theorem sessions_keep_the_invariants (commands : list string) :
  let final := snd (session commands "" init) in
  reachable ROT_LEFT ROT_RIGHT final /\
  placed_on_table final /\
  (quarter_turns ROT_LEFT ROT_RIGHT ->
   placed_facing_compass final /\
   (placed final = true -> vz (pos final) = 0)).
Proof.
  cbv zeta.
  assert (Hr : reachable ROT_LEFT ROT_RIGHT (snd (session commands "" init)))
    by (apply session_reachable, reachable_init).
  split; [exact Hr |].
  split; [apply (reachable_placed_on_table _ _ _ Hr) |].
  intros Hq. split.
  - apply (reachable_facing_compass _ _ Hq _ Hr).
  - apply (reachable_height_zero _ _ _ Hq Hr).
Qed.

(** X9. A session over [first ++ rest] is the session over [first]
    followed by the session over [rest] from the state and output
    reached; and lines after an EXIT are never run. *)
Theorem sessions_compose (first rest : list string) (output : string)
    (self : Robot) :
  session (first ++ rest) output self =
  (output' <- session first output ;; session rest output') self /\
  session (first ++ "EXIT" :: rest) output self =
  (session first output ;;; raise (SystemExit 0)) self.
Proof.
  revert output self.
  induction first as [| c first IH]; intros output self.
  - split; reflexivity.
  - cbn [app]. unfold bind. rewrite !session_cons.
    destruct (turn c self) as [[output' | e] self']; [| split; reflexivity].
    destruct (IH output' self') as [IH1 IH2]. unfold bind in IH1, IH2.
    rewrite IH1, IH2. split; reflexivity.
Qed.
End CommandLoop.

(** ** Lines the parser takes *)

(** X10. A verb without parameters is accepted exactly when the line is
    that verb and nothing else: a trailing space, a parameter or a
    leading space makes it a parse failure. *)
Theorem plain_verb_only_alone (command_str verb : string) (self : Robot) :
  In verb plain_verbs ->
  (fst (parse_command_input command_str self) = Ok (verb, []) <->
   command_str = verb).
Proof.
  intros Hverb. rewrite parse_command_input_eq. cbn [fst]. split.
  - intros [= H].
    destruct (parse_outcome_shape command_str) as [E | [(x & y & d & E) | [_ E]]];
      rewrite E in H.
    + injection H as <-. unfold plain_verbs in Hverb. simpl in Hverb.
      intuition discriminate.
    + discriminate H.
    + injection H as H. exact H.
  - intros ->. unfold plain_verbs in Hverb. simpl in Hverb.
    destruct Hverb as [<- | [<- | [<- | [<- | [<- | [<- | []]]]]]]; reflexivity.
Qed.

(** X11. What a placed robot reports can be given back to PLACE: the
    line "PLACE " followed by the report of a reachable placed robot,
    run on any robot, restores exactly the reported state. *)
Theorem report_places_back (ROT_LEFT ROT_RIGHT : Rotation) (self other : Robot)
    (text : string) :
  quarter_turns ROT_LEFT ROT_RIGHT ->
  reachable ROT_LEFT ROT_RIGHT self ->
  placed self = true ->
  fst (report self) = Ok text ->
  run_line ROT_LEFT ROT_RIGHT ("PLACE " ++ text) other = (Ok "", self).
Proof.
  intros Hq Hreach Hp.
  pose proof (reachable_facing_compass _ _ Hq self Hreach Hp) as Hh.
  pose proof (reachable_placed_on_table _ _ self Hreach Hp) as Hon.
  pose proof (reachable_height_zero _ _ self Hq Hreach Hp) as Hz.
  rewrite report_eq, Hp. cbn [fst].
  destruct self as [[x y z] h b]. cbn [pos heading_vector placed vx vy vz] in *.
  subst b z. destruct Hon as [Hx Hy]. cbn [vx vy] in Hx, Hy.
  apply compass_vectors_cases in Hh.
  assert (Hxs : x = 0 \/ x = 1 \/ x = 2 \/ x = 3 \/ x = 4) by lia.
  assert (Hys : y = 0 \/ y = 1 \/ y = 2 \/ y = 3 \/ y = 4) by lia.
  clear Hx Hy Hreach.
  intros [= <-].
  destruct Hxs as [-> | [-> | [-> | [-> | ->]]]];
    destruct Hys as [-> | [-> | [-> | [-> | ->]]]];
    destruct Hh as [-> | [-> | [-> | ->]]];
    vm_compute; reflexivity.
Qed.

(** ** The map *)



(** Drawn with a blank, the robot does not show, wherever it is. *)
Lemma draw_cells_blank (self : Robot) (r : Z) (columns : list Z) :
  forall draw_row,
    draw_cells self " " r columns draw_row = draw_cells init " " r columns draw_row.
Proof.
  unfold draw_cells.
  induction columns as [| c columns IH]; intros draw_row; cbn [fold_left].
  - reflexivity.
  - rewrite IH.
    destruct ((vx (pos self) =? c) && (vy (pos self) =? r));
      destruct ((vx (pos init) =? c) && (vy (pos init) =? r)); reflexivity.
Qed.



(** X13. For a placed robot on the table facing a compass direction the
    map shows the marker of that direction in the cell of the robot's
    position and a blank in every other cell. *)
Theorem draw_map_shows_robot (self : Robot) (printed : list string) :
  placed self = true ->
  on_table (pos self) ->
  In (heading_vector self) compass_vectors ->
  fst (draw_map self) = Ok printed ->
  exists marker,
    dict_getitem MAPCHAR_FROM_COMPASS_DIRECTION
      (PyStr (get_compass_direction_from_dirvec (heading_vector self)))
    = Ok (String marker "") /\
    forall c r, 0 <= c <= 4 -> 0 <= r <= 4 ->
      map_cell printed c r =
      Some (if (c =? vx (pos self)) && (r =? vy (pos self)) then marker else " "%char).
Proof.
  intros Hp [Hx Hy] Hh Hd.
  destruct self as [[x y z] h b]. cbn [pos heading_vector placed vx vy vz] in *.
  subst b. apply compass_vectors_cases in Hh.
  assert (Hxs : x = 0 \/ x = 1 \/ x = 2 \/ x = 3 \/ x = 4) by lia.
  assert (Hys : y = 0 \/ y = 1 \/ y = 2 \/ y = 3 \/ y = 4) by lia.
  clear Hx Hy.
  destruct Hxs as [-> | [-> | [-> | [-> | ->]]]];
    destruct Hys as [-> | [-> | [-> | [-> | ->]]]];
    destruct Hh as [-> | [-> | [-> | ->]]];
    vm_compute in Hd; injection Hd as <-;
    (eexists; split; [vm_compute; reflexivity |]);
    intros c r Hc Hr;
    assert (Hcs : c = 0 \/ c = 1 \/ c = 2 \/ c = 3 \/ c = 4) by lia;
    assert (Hrs : r = 0 \/ r = 1 \/ r = 2 \/ r = 3 \/ r = 4) by lia;
    clear Hc Hr;
    destruct Hcs as [-> | [-> | [-> | [-> | ->]]]];
    destruct Hrs as [-> | [-> | [-> | [-> | ->]]]];
    reflexivity.
Qed.

(** X14. For a robot that is not placed every cell of the map is blank,
    whatever its position field holds. *)
Theorem draw_map_hides_unplaced_robot (self : Robot) (printed : list string) :
  placed self = false ->
  fst (draw_map self) = Ok printed ->
  forall c r, 0 <= c <= 4 -> 0 <= r <= 4 ->
    map_cell printed c r = Some " "%char.
Proof.
  intros Hp Hd c r Hc Hr.
  unfold draw_map, bind, get in Hd. rewrite Hp in Hd. cbn [fst snd ret] in Hd.
  change (py_range TABLE_DIM_MAX (TABLE_DIM_MIN - 1) (-1)) with [4; 3; 2; 1; 0] in Hd.
  change (py_range TABLE_DIM_MIN (TABLE_DIM_MAX + 1) 1) with [0; 1; 2; 3; 4] in Hd.
  cbn [map] in Hd.
  rewrite (draw_cells_blank self 4), (draw_cells_blank self 3),
    (draw_cells_blank self 2), (draw_cells_blank self 1),
    (draw_cells_blank self 0) in Hd.
  injection Hd as <-.
  assert (Hcs : c = 0 \/ c = 1 \/ c = 2 \/ c = 3 \/ c = 4) by lia.
  assert (Hrs : r = 0 \/ r = 1 \/ r = 2 \/ r = 3 \/ r = 4) by lia.
  destruct Hcs as [-> | [-> | [-> | [-> | ->]]]];
    destruct Hrs as [-> | [-> | [-> | [-> | ->]]]];
    reflexivity.
Qed.

(** ** Numbers as text *)

Lemma digits_length (d : Decimal.uint) :
  String.length (NilEmpty.string_of_uint d) = Decimal.nb_digits d.
Proof.
  induction d; simpl; congruence.
Qed.

Lemma digits_rstrip (d : Decimal.uint) :
  rstrip (NilEmpty.string_of_uint d) = NilEmpty.string_of_uint d.
Proof.
  induction d as [| d IH | d IH | d IH | d IH | d IH | d IH | d IH | d IH | d IH | d IH];
    [reflexivity | ..];
    cbn [NilEmpty.string_of_uint rstrip]; rewrite IH;
    destruct (NilEmpty.string_of_uint d); reflexivity.
Qed.

(** The digit scan started on a positive value. *)
Lemma scan_digits_acc (d : Decimal.uint) :
  forall (acc : positive) (k : nat),
    scan_digits (NilEmpty.string_of_uint d) (Z.pos acc) k false
    = Some (Z.pos (Pos.of_uint_acc d acc), (k + Decimal.nb_digits d)%nat).
Proof.
  induction d as [| d IH | d IH | d IH | d IH | d IH | d IH | d IH | d IH | d IH | d IH];
    intros acc k;
    [ cbn [NilEmpty.string_of_uint scan_digits Pos.of_uint_acc Decimal.nb_digits];
      rewrite Nat.add_0_r; reflexivity | ..];
    cbn [NilEmpty.string_of_uint scan_digits Pos.of_uint_acc Decimal.nb_digits];
    match goal with
    | |- context [Ascii.eqb ?c "_"] => change (Ascii.eqb c "_") with false
    end;
    match goal with
    | |- context [digit_value ?c] =>
        let v := eval vm_compute in (digit_value c) in change (digit_value c) with v
    end;
    cbv iota;
    match goal with
    | |- scan_digits _ ?z _ _ = Some (Z.pos (Pos.of_uint_acc _ ?p), _) =>
        replace z with (Z.pos p) by lia
    end;
    rewrite IH; f_equal; f_equal; lia.
Qed.

(** The digit scan from zero: leading zeros leave the value at zero. *)
Lemma scan_digits_zero (d : Decimal.uint) :
  forall k : nat,
    scan_digits (NilEmpty.string_of_uint d) 0 k false
    = Some (Z.of_N (Pos.of_uint d), (k + Decimal.nb_digits d)%nat).
Proof.
  induction d as [| d IH | d IH | d IH | d IH | d IH | d IH | d IH | d IH | d IH | d IH];
    intros k;
    [ cbn [NilEmpty.string_of_uint scan_digits Pos.of_uint Decimal.nb_digits];
      rewrite Nat.add_0_r; reflexivity
    | cbn [NilEmpty.string_of_uint scan_digits Pos.of_uint Decimal.nb_digits];
      change (Ascii.eqb "0" "_") with false;
      change (digit_value "0") with (Some 0); cbv iota;
      change (10 * 0 + 0) with 0; rewrite IH; f_equal; f_equal; lia
    | ..];
    cbn [NilEmpty.string_of_uint scan_digits Pos.of_uint Decimal.nb_digits];
    match goal with
    | |- context [Ascii.eqb ?c "_"] => change (Ascii.eqb c "_") with false
    end;
    match goal with
    | |- context [digit_value ?c] =>
        let v := eval vm_compute in (digit_value c) in change (digit_value c) with v
    end;
    cbv iota;
    match goal with
    | |- scan_digits _ ?z _ _ = _ =>
        let v := eval vm_compute in z in change z with v
    end;
    rewrite scan_digits_acc; cbn [Z.of_N]; f_equal; f_equal; lia.
Qed.

(** [int] on a string of digits that does not start with a sign. *)
Lemma py_int_digits (d : Decimal.uint) :
  d <> Decimal.Nil ->
  (Decimal.nb_digits d <= int_max_str_digits)%nat ->
  py_int (NilEmpty.string_of_uint d) = Ok (Z.of_N (Pos.of_uint d)).
Proof.
  intros Hnil Hlen. unfold py_int.
  assert (Hl : lstrip (NilEmpty.string_of_uint d) = NilEmpty.string_of_uint d)
    by (destruct d; reflexivity).
  rewrite Hl, digits_rstrip.
  pose proof (scan_digits_zero d 0) as Hscan. cbn [Nat.add] in Hscan.
  apply Nat.ltb_ge in Hlen.
  destruct d; [contradiction Hnil; reflexivity | ..];
    cbn [NilEmpty.string_of_uint] in *; cbv iota beta;
    rewrite Hscan, Hlen; reflexivity.
Qed.

Lemma py_int_minus_digits (d : Decimal.uint) :
  d <> Decimal.Nil ->
  (Decimal.nb_digits d <= int_max_str_digits)%nat ->
  py_int (String "-" (NilEmpty.string_of_uint d)) = Ok (- Z.of_N (Pos.of_uint d)).
Proof.
  intros Hnil Hlen. unfold py_int.
  cbn [lstrip]. change (is_space "-") with false. cbv iota.
  assert (Hr : rstrip (String "-" (NilEmpty.string_of_uint d))
               = String "-" (NilEmpty.string_of_uint d)).
  { cbn [rstrip]. rewrite digits_rstrip.
    destruct d; [contradiction Hnil; reflexivity | ..]; reflexivity. }
  rewrite Hr. cbv iota beta.
  pose proof (scan_digits_zero d 0) as Hscan. cbn [Nat.add] in Hscan.
  apply Nat.ltb_ge in Hlen.
  destruct d; [contradiction Hnil; reflexivity | ..];
    cbn [NilEmpty.string_of_uint] in *; cbv iota beta;
    rewrite Hscan, Hlen; reflexivity.
Qed.

Lemma py_int_py_str (n : Z) :
  (String.length (py_str_of_int (Z.abs n)) <= int_max_str_digits)%nat ->
  py_int (py_str_of_int n) = Ok n.
Proof.
  unfold py_str_of_int. destruct n as [| p | p]; cbn [Z.abs Z.to_int NilZero.string_of_int].
  - intros _. reflexivity.
  - pose proof (DecimalPos.Unsigned.to_uint_nonnil p) as Hnil.
    unfold NilZero.string_of_uint.
    destruct (Pos.to_uint p) eqn:E; [contradiction Hnil; reflexivity | ..];
      rewrite <- E in *; rewrite digits_length; intros Hlen;
      rewrite (py_int_digits _ Hnil Hlen), DecimalPos.Unsigned.of_to; reflexivity.
  - pose proof (DecimalPos.Unsigned.to_uint_nonnil p) as Hnil.
    unfold NilZero.string_of_uint.
    destruct (Pos.to_uint p) eqn:E; [contradiction Hnil; reflexivity | ..];
      rewrite <- E in *; rewrite digits_length; intros Hlen;
      rewrite (py_int_minus_digits _ Hnil Hlen), DecimalPos.Unsigned.of_to; reflexivity.
Qed.

(** X15. [int(str(n)) == n] for every integer whose decimal form has at
    most 4300 digits: the coordinates [report] prints are read back by
    the parser as the same numbers. *)
Theorem int_reads_back_str (n : Z) :
  (String.length (py_str_of_int (Z.abs n)) <= int_max_str_digits)%nat ->
  py_int (py_str_of_int n) = Ok n.
Proof.
  exact (py_int_py_str n).
Qed.

Lemma split_on_app (sep : ascii) (a b : string) :
  split_on sep a = [a] ->
  split_on sep (a ++ String sep b) = a :: split_on sep b.
Proof.
  induction a as [| c a IH]; cbn [append split_on].
  - intros _. rewrite Ascii.eqb_refl. reflexivity.
  - destruct (Ascii.eqb c sep).
    + intros H. inversion H.
    + destruct (split_on sep a) as [| piece pieces] eqn:E.
      * exfalso. apply (split_on_not_nil sep a). exact E.
      * intros [= -> ->]. rewrite (IH eq_refl). reflexivity.
Qed.

(** A string of digits has no piece to cut off at a character that is
    not a digit. *)
Lemma digits_not_split (sep : ascii) (d : Decimal.uint) :
  digit_value sep = None ->
  split_on sep (NilEmpty.string_of_uint d) = [NilEmpty.string_of_uint d].
Proof.
  intros Hsep.
  induction d as [| d IH | d IH | d IH | d IH | d IH | d IH | d IH | d IH | d IH | d IH];
    [reflexivity | ..];
    cbn [NilEmpty.string_of_uint split_on];
    match goal with
    | |- context [Ascii.eqb ?c sep] =>
        destruct (Ascii.eqb_spec c sep) as [<- | _]; [discriminate Hsep |]
    end;
    rewrite IH; reflexivity.
Qed.

Lemma py_str_not_split (sep : ascii) (n : Z) :
  digit_value sep = None -> sep <> "-"%char ->
  split_on sep (py_str_of_int n) = [py_str_of_int n].
Proof.
  intros Hsep Hminus. unfold py_str_of_int.
  destruct n as [| p | p]; cbn [Z.to_int NilZero.string_of_int].
  - cbn [NilZero.string_of_uint NilEmpty.string_of_uint].
    apply (digits_not_split sep (Decimal.D0 Decimal.Nil) Hsep).
  - pose proof (Unsigned.to_uint_nonnil p) as Hnil. unfold NilZero.string_of_uint.
    destruct (Pos.to_uint p) eqn:E; [contradiction Hnil; reflexivity | ..];
      rewrite <- E; apply (digits_not_split sep _ Hsep).
  - pose proof (Unsigned.to_uint_nonnil p) as Hnil. unfold NilZero.string_of_uint.
    destruct (Pos.to_uint p) eqn:E; [contradiction Hnil; reflexivity | ..];
      rewrite <- E; cbn [split_on];
      (destruct (Ascii.eqb_spec "-" sep) as [<- | _]; [contradiction Hminus; reflexivity |]);
      rewrite (digits_not_split sep _ Hsep); reflexivity.
Qed.

Lemma split_on_joined (sep : ascii) (a b : string) :
  split_on sep a = [a] -> split_on sep b = [b] ->
  split_on sep (a ++ b) = [a ++ b].
Proof.
  intros Ha Hb. induction a as [| c a IH]; cbn [append split_on]; [exact Hb |].
  cbn [split_on] in Ha. destruct (Ascii.eqb c sep); [inversion Ha |].
  destruct (split_on sep a) as [| piece pieces] eqn:E.
  - exfalso. apply (split_on_not_nil sep a). exact E.
  - injection Ha as -> ->. rewrite (IH eq_refl). reflexivity.
Qed.

(** X16. Every PLACE call can be given as a line: for integers [x], [y]
    of at most 4300 digits and a direction text without space or comma,
    the line "PLACE x,y,direction" parses to PLACE with exactly these
    parameters, and one turn of the loop on it is [place(x, y,
    direction)]. *)
Theorem place_line_reads_back (ROT_LEFT ROT_RIGHT : Rotation) (self : Robot)
    (x y : Z) (name : string) :
  (String.length (py_str_of_int (Z.abs x)) <= int_max_str_digits)%nat ->
  (String.length (py_str_of_int (Z.abs y)) <= int_max_str_digits)%nat ->
  split_on " " name = [name] ->
  split_on "," name = [name] ->
  let line := "PLACE " ++ py_str_of_int x ++ "," ++ py_str_of_int y ++ "," ++ name in
  parse_command_input line self
    = (Ok ("PLACE", [PyInt x; PyInt y; PyStr name]), self) /\
  run_line ROT_LEFT ROT_RIGHT line self
    = (Ok "", after ROT_LEFT ROT_RIGHT (OpPlace x y (PyStr name)) self).
Proof.
  intros Hx Hy Hspace Hcomma. cbv zeta.
  set (block := py_str_of_int x ++ "," ++ py_str_of_int y ++ "," ++ name).
  assert (Hblock_space : split_on " " block = [block]).
  { unfold block. apply split_on_joined; [apply py_str_not_split; [reflexivity | discriminate] |].
    change ("," ++ py_str_of_int y ++ "," ++ name)
      with (String "," (py_str_of_int y ++ "," ++ name)).
    cbn [split_on]. change (Ascii.eqb "," " ") with false. cbv iota.
    rewrite split_on_joined;
      [reflexivity | apply py_str_not_split; [reflexivity | discriminate] |].
    change ("," ++ name) with (String "," name).
    cbn [split_on]. change (Ascii.eqb "," " ") with false. cbv iota.
    rewrite Hspace. reflexivity. }
  assert (Hblock_comma : split_on "," block = [py_str_of_int x; py_str_of_int y; name]).
  { unfold block.
    change (py_str_of_int x ++ "," ++ py_str_of_int y ++ "," ++ name)
      with (py_str_of_int x ++ String "," (py_str_of_int y ++ String "," name)).
    rewrite split_on_app by (apply py_str_not_split; [reflexivity | discriminate]).
    rewrite split_on_app by (apply py_str_not_split; [reflexivity | discriminate]).
    rewrite Hcomma. reflexivity. }
  assert (Hparse : parse_outcome (split_on " " ("PLACE " ++ block))
                   = ("PLACE", [PyInt x; PyInt y; PyStr name])).
  { change ("PLACE " ++ block) with ("PLACE" ++ String " " block).
    rewrite (split_on_app " " "PLACE" block eq_refl), Hblock_space.
    unfold parse_outcome.
    change (find _ COMMANDS_AND_ARGS)
      with (Some ("PLACE", [py_type_int; py_type_int; py_type_str])).
    cbv beta iota zeta. rewrite Hblock_comma.
    cbn [length Nat.eqb convert_all].
    rewrite (py_int_py_str x Hx), (py_int_py_str y Hy). reflexivity. }
  split.
  - rewrite parse_command_input_eq, Hparse. reflexivity.
  - rewrite run_line_eq, Hparse. cbn [fst snd]. apply execute_place.
Qed.

(* ================================================================= *)
(** ** Instances of the properties above *)

(** X2 at PLACE 3,4,WEST, on a fresh robot and on the robot at 1,2
    facing EAST. *)
Lemma place_overrides_previous_state_witness :
  place 3 4 (PyStr "WEST")
    {| pos := Vec 1 2 0; heading_vector := Vec 1 0 0; placed := true |}
  = place 3 4 (PyStr "WEST") init.
Proof.
  apply (place_overrides_previous_state init
           {| pos := Vec 1 2 0; heading_vector := Vec 1 0 0; placed := true |}
           3 4 (PyStr "WEST")).
  reflexivity.
Defined.

(** X3 at five moves east from 1,2: the robot stops at 4,2. *)
Lemma moves_stop_at_the_edge_witness :
  move_times 5 {| pos := Vec 1 2 0; heading_vector := Vec 1 0 0; placed := true |}
  = {| pos := Vec 4 2 0; heading_vector := Vec 1 0 0; placed := true |}.
Proof.
  apply (moves_stop_at_the_edge 5
           {| pos := Vec 1 2 0; heading_vector := Vec 1 0 0; placed := true |}).
  - reflexivity.
  - unfold on_table. simpl. lia.
  - unfold compass_vectors. simpl. auto 6.
Defined.

(** X4 at the robot at 1,2 facing EAST, on the sample rotations. *)
Lemma there_and_back_witness :
  after_all ROT_LEFT_binary64 ROT_RIGHT_binary64
    [OpMove; OpLeft; OpLeft; OpMove; OpLeft; OpLeft]
    {| pos := Vec 1 2 0; heading_vector := Vec 1 0 0; placed := true |}
  = {| pos := Vec 1 2 0; heading_vector := Vec 1 0 0; placed := true |}.
Proof.
  apply (there_and_back ROT_LEFT_binary64 ROT_RIGHT_binary64 _
           binary64_quarter_turns reachable_after_place_1_2_east).
  - reflexivity.
  - unfold on_table. simpl. lia.
Defined.

(** X6 at a PLACE line with spaces for commas. *)
Lemma rejected_line_changes_nothing_witness :
  run_line ROT_LEFT_binary64 ROT_RIGHT_binary64 "PLACE 1 2 EAST"
    {| pos := Vec 1 2 0; heading_vector := Vec 1 0 0; placed := true |}
  = (Ok "", {| pos := Vec 1 2 0; heading_vector := Vec 1 0 0; placed := true |}).
Proof.
  apply (rejected_line_changes_nothing ROT_LEFT_binary64 ROT_RIGHT_binary64
           "PLACE 1 2 EAST").
  reflexivity.
Defined.

(** X10 at MOVE followed by a space. *)
Lemma plain_verb_only_alone_witness :
  fst (parse_command_input "MOVE " init) = Ok ("MOVE", []) <-> "MOVE " = "MOVE".
Proof.
  apply (plain_verb_only_alone "MOVE " "MOVE" init).
  unfold plain_verbs. simpl. auto.
Defined.

(** X11 at the robot at 1,2 facing EAST, given back to a fresh robot. *)
Lemma report_places_back_witness :
  run_line ROT_LEFT_binary64 ROT_RIGHT_binary64 "PLACE 1,2,EAST" init
  = (Ok "", {| pos := Vec 1 2 0; heading_vector := Vec 1 0 0; placed := true |}).
Proof.
  apply (report_places_back ROT_LEFT_binary64 ROT_RIGHT_binary64
           {| pos := Vec 1 2 0; heading_vector := Vec 1 0 0; placed := true |}
           init "1,2,EAST" binary64_quarter_turns reachable_after_place_1_2_east).
  - reflexivity.
  - reflexivity.
Defined.

(** X13 at the robot at 1,2 facing EAST: the marker is ">", in the
    second cell of the row of 2. *)
Lemma draw_map_shows_robot_witness :
  nth 3 match fst (draw_map
                     {| pos := Vec 1 2 0; heading_vector := Vec 1 0 0; placed := true |})
        with
        | Ok printed => printed
        | Raise _ => []
        end ""
  = "2 #   >       #" /\
  exists marker,
    dict_getitem MAPCHAR_FROM_COMPASS_DIRECTION (PyStr "EAST") = Ok (String marker "") /\
    forall c r, 0 <= c <= 4 -> 0 <= r <= 4 ->
      map_cell match fst (draw_map
                            {| pos := Vec 1 2 0; heading_vector := Vec 1 0 0;
                               placed := true |})
               with
               | Ok printed => printed
               | Raise _ => []
               end c r
      = Some (if (c =? 1) && (r =? 2) then marker else " "%char).
Proof.
  split; [reflexivity |].
  apply (draw_map_shows_robot
           {| pos := Vec 1 2 0; heading_vector := Vec 1 0 0; placed := true |}).
  - reflexivity.
  - unfold on_table. simpl. lia.
  - unfold compass_vectors. simpl. auto 6.
  - reflexivity.
Defined.

(** X14 at the fresh robot, whose position field is (0,0,0): the cell of
    (0,0) is blank. *)
Lemma draw_map_hides_unplaced_robot_witness :
  map_cell match fst (draw_map init) with
           | Ok printed => printed
           | Raise _ => []
           end 0 0
  = Some " "%char.
Proof.
  apply (draw_map_hides_unplaced_robot init); [reflexivity | reflexivity | lia | lia].
Defined.

(** X15 at -12. *)
Lemma int_reads_back_str_witness : py_int "-12" = Ok (-12).
Proof.
  apply (int_reads_back_str (-12)).
  unfold int_max_str_digits. simpl. lia.
Defined.

(** X16 at PLACE -1,7,EAST. *)
Lemma place_line_reads_back_witness :
  parse_command_input "PLACE -1,7,EAST" init
    = (Ok ("PLACE", [PyInt (-1); PyInt 7; PyStr "EAST"]), init) /\
  run_line ROT_LEFT_binary64 ROT_RIGHT_binary64 "PLACE -1,7,EAST" init
    = (Ok "", after ROT_LEFT_binary64 ROT_RIGHT_binary64
                (OpPlace (-1) 7 (PyStr "EAST")) init).
Proof.
  apply (place_line_reads_back ROT_LEFT_binary64 ROT_RIGHT_binary64 init (-1) 7 "EAST").
  - unfold int_max_str_digits. simpl. lia.
  - unfold int_max_str_digits. simpl. lia.
  - reflexivity.
  - reflexivity.
Defined.
